(** * Meteocat MCP server: URL construction, request handling and dispatch

    A shallow embedding of [src/meteocat_client.py] and [src/server.py].
    Python [int] is [Z], [str] is [string], [Optional[str]] is
    [option string], the header [dict] is a [gmap string string], and the
    asynchronous methods are computations in a small state/trace/error monad
    whose only effect is the HTTP GET. *)

From Stdlib Require Import ZArith String Ascii List Lia PrimFloat.
From stdpp Require Import base gmap strings pretty list.

Local Open Scope string_scope.
Local Open Scope Z_scope.
Local Open Scope list_scope.

Set Warnings "-register-all".

(** ** Python string primitives used by the client *)

Module Py.

(** [str(n)] and [f"{n}"] for an [int]. *)
Definition str_int (n : Z) : string := pretty n.

Fixpoint zeros (k : nat) : string :=
  match k with
  | O => ""
  | S k' => String "0" (zeros k')
  end.

(** [f"{n:02d}"]: the sign first, then zeros, then the digits, the zeros
    filling the text up to a total width of two characters. *)
Definition format_02d (n : Z) : string :=
  let sign := if n <? 0 then "-" else "" in
  let digits := str_int (Z.abs n) in
  sign +:+ zeros (2 - (String.length sign + String.length digits)) +:+ digits.

(** [f"{s}"] for an [Optional[str]]: [str(None)] is ["None"]. *)
Definition fstr (s : option string) : string :=
  match s with
  | Some v => v
  | None => "None"
  end.

(** Truth value of an [Optional[str]]: [None] and [""] are false. *)
Definition truthy (s : option string) : bool :=
  match s with
  | None => false
  | Some EmptyString => false
  | Some (String _ _) => true
  end.

(** Truth value of a list: empty is false. *)
Definition truthy_list {A} (l : list A) : bool :=
  match l with
  | [] => false
  | _ :: _ => true
  end.

(** [sub in s]. *)
Definition includes (sub s : string) : Prop := ∃ pre post, s = pre +:+ sub +:+ post.

(** [sep.join(l)]. *)
Fixpoint join (sep : string) (l : list string) : string :=
  match l with
  | [] => ""
  | [x] => x
  | x :: rest => x +:+ sep +:+ join sep rest
  end.

End Py.

(** ** [meteocat_client.py]: the URL each method builds *)

Definition XEMA_BASE_URL : string := "https://api.meteo.cat/xema/v1".
Definition PRONOSTIC_BASE_URL : string := "https://api.meteo.cat/pronostic/v1".
Definition REFERENCIA_BASE_URL : string := "https://api.meteo.cat/referencia/v1".

Module Url.
Import Py.

Definition get_municipalities : string := REFERENCIA_BASE_URL +:+ "/municipis".
Definition get_regions : string := REFERENCIA_BASE_URL +:+ "/comarques".
Definition get_weather_symbols : string := REFERENCIA_BASE_URL +:+ "/simbols".

Definition get_all_stations (state date : option string) : string :=
  let url := XEMA_BASE_URL +:+ "/estacions/metadades" in
  let params : list string := [] in
  let params := if truthy state then (params ++ ["estat=" +:+ fstr state])%list else params in
  let params := if truthy date then (params ++ ["data=" +:+ fstr date])%list else params in
  if truthy_list params then url +:+ "?" +:+ join "&" params else url.

Definition get_station (station_code : string) : string :=
  XEMA_BASE_URL +:+ "/estacions/" +:+ station_code +:+ "/metadades".

Definition get_station_variables (station_code : string) (state : option string) : string :=
  let url := XEMA_BASE_URL +:+ "/estacions/" +:+ station_code +:+ "/variables/metadades" in
  if truthy state then url +:+ "?estat=" +:+ fstr state else url.

Definition get_all_variables : string := XEMA_BASE_URL +:+ "/variables/metadades".

Definition get_latest_readings (variable_code : Z) (station_code : option string) : string :=
  let url := XEMA_BASE_URL +:+ "/variables/mesurades/" +:+ str_int variable_code +:+ "/ultimes" in
  if truthy station_code then url +:+ "?codiEstacio=" +:+ fstr station_code else url.

Definition get_readings (variable_code year month day : Z) (station_code : option string) : string :=
  let month_str := format_02d month in
  let day_str := format_02d day in
  let url := XEMA_BASE_URL +:+ "/variables/mesurades/" +:+ str_int variable_code +:+ "/"
             +:+ str_int year +:+ "/" +:+ month_str +:+ "/" +:+ day_str in
  if truthy station_code then url +:+ "?codiEstacio=" +:+ fstr station_code else url.

Definition get_municipal_forecast_72h (municipality_code : string) : string :=
  PRONOSTIC_BASE_URL +:+ "/municipalHoraria/" +:+ municipality_code.

Definition get_municipal_forecast_8days (municipality_code : string) : string :=
  PRONOSTIC_BASE_URL +:+ "/municipal/" +:+ municipality_code.

Definition get_general_forecast (year month day : Z) : string :=
  let month_str := format_02d month in
  let day_str := format_02d day in
  PRONOSTIC_BASE_URL +:+ "/catalunya/" +:+ str_int year +:+ "/" +:+ month_str +:+ "/" +:+ day_str.

Definition get_regional_forecast (year month day : Z) : string :=
  let month_str := format_02d month in
  let day_str := format_02d day in
  PRONOSTIC_BASE_URL +:+ "/comarcal/" +:+ str_int year +:+ "/" +:+ month_str +:+ "/" +:+ day_str.

Definition get_uvi_forecast (municipality_code : string) : string :=
  PRONOSTIC_BASE_URL +:+ "/uvi/" +:+ municipality_code.

End Url.

(** ** Values and effects *)

(** What [response.json()] produces: Python's [None], [bool], [int], [float],
    [str], [list] and [dict] (a [dict] keeps the order of its keys). *)
Inductive JSON : Type :=
| JNull
| JBool (b : bool)
| JInt (n : Z)
| JFloat (x : float)
| JString (s : string)
| JArray (items : list JSON)
| JObject (members : list (string * JSON)).

(** The exceptions that cross the client's boundary. *)
Inductive exn : Type :=
| ValueError (msg : string)       (* raised by [MeteocatClient.__init__] *)
| Exception (msg : string)        (* raised by [_request] on a rejected status *)
| JSONDecodeError                 (* raised by [response.json()] *)
| RequestError (msg : string).    (* raised by httpx when the GET itself fails *)

Inductive result (A : Type) : Type :=
| Ok (a : A)
| Raise (e : exn).
Arguments Ok {A} a.
Arguments Raise {A} e.

Record Request : Type := mkRequest {
  req_url : string;
  req_headers : gmap string string
}.

Record Response : Type := mkResponse {
  status_code : Z;
  text : string
}.

(** The upstream side of [client.get]: what each GET is answered with. *)
Definition Network : Type := Request → result Response.

(** A computation over a mutable state [S]: it returns the state it leaves,
    the GET requests it sent, in order, and its value or the exception it
    raised. *)
Definition Eff (S A : Type) : Type := Network → S → S * list Request * result A.

Module Eff.

Definition ret {S A} (a : A) : Eff S A := λ _ st, (st, [], Ok a).

Definition bind {S A B} (k : A → Eff S B) (m : Eff S A) : Eff S B :=
  λ net st,
    let '(st1, sent1, r) := m net st in
    match r with
    | Raise e => (st1, sent1, Raise e)
    | Ok a => let '(st2, sent2, r2) := k a net st1 in (st2, sent1 ++ sent2, r2)
    end.

Definition raise {S A} (e : exn) : Eff S A := λ _ st, (st, [], Raise e).

Definition get {S} : Eff S S := λ _ st, (st, [], Ok st).

(** An assignment to the state, such as [self.x = v] in a method. *)
Definition put {S} (st : S) : Eff S unit := λ _ _, (st, [], Ok tt).

(** [await client.get(url, headers=headers)]. *)
Definition http_get {S} (url : string) (hdrs : gmap string string) : Eff S Response :=
  λ net st, let rq := mkRequest url hdrs in (st, [rq], net rq).

Definition state {S A} (x : S * list Request * result A) : S := x.1.1.
Definition sent {S A} (x : S * list Request * result A) : list Request := x.1.2.
Definition outcome {S A} (x : S * list Request * result A) : result A := x.2.

End Eff.

#[global] Instance Eff_ret {S} : MRet (Eff S) := @Eff.ret S.
#[global] Instance Eff_bind {S} : MBind (Eff S) := @Eff.bind S.

(** ** A small JSON codec, used to run the client on concrete bodies *)

Module SampleJson.

Definition dquote : ascii := ascii_of_nat 34.
Definition quoted (s : string) : string := String dquote (s +:+ String dquote "").

Fixpoint dumps (v : JSON) : string :=
  match v with
  | JNull => "null"
  | JBool true => "true"
  | JBool false => "false"
  | JInt n => pretty n
  | JFloat _ => "NaN"
  | JString s => quoted s
  | JArray items => "[" +:+ Py.join "," (map dumps items) +:+ "]"
  | JObject members =>
      "{" +:+ Py.join "," (map (λ kv, quoted kv.1 +:+ ":" +:+ dumps kv.2) members) +:+ "}"
  end.

Definition digit_val (c : ascii) : option Z :=
  let n := Z.of_nat (nat_of_ascii c) in
  if (48 <=? n) && (n <=? 57) then Some (n - 48) else None.

Definition is_digit (c : ascii) : bool :=
  match digit_val c with
  | Some _ => true
  | None => false
  end.

Fixpoint digits (acc : Z) (s : string) : Z * string :=
  match s with
  | String c r =>
      match digit_val c with
      | Some d => digits (10 * acc + d) r
      | None => (acc, s)
      end
  | EmptyString => (acc, s)
  end.

Definition number (s : string) : option (Z * string) :=
  match s with
  | String c r =>
      if Ascii.eqb c "-" then
        match r with
        | String d _ =>
            if is_digit d then let '(n, r') := digits 0 r in Some (- n, r') else None
        | EmptyString => None
        end
      else if is_digit c then Some (digits 0 s) else None
  | EmptyString => None
  end.

Fixpoint until_quote (s : string) : option (string * string) :=
  match s with
  | EmptyString => None
  | String c r =>
      if Ascii.eqb c dquote then Some ("", r)
      else match until_quote r with
           | Some (body, r') => Some (String c body, r')
           | None => None
           end
  end.

Fixpoint elements (value : string → option (JSON * string)) (fuel : nat) (s : string)
  : option (list JSON * string) :=
  match fuel with
  | O => None
  | S fuel' =>
      match value s with
      | Some (v, String c r) =>
          if Ascii.eqb c "," then
            match elements value fuel' r with
            | Some (vs, r') => Some (v :: vs, r')
            | None => None
            end
          else if Ascii.eqb c "]" then Some ([v], r) else None
      | _ => None
      end
  end.

Fixpoint members (value : string → option (JSON * string)) (fuel : nat) (s : string)
  : option (list (string * JSON) * string) :=
  match fuel with
  | O => None
  | S fuel' =>
      match s with
      | String q r =>
          if Ascii.eqb q dquote then
            match until_quote r with
            | Some (k, String colon r1) =>
                if Ascii.eqb colon ":" then
                  match value r1 with
                  | Some (v, String c r2) =>
                      if Ascii.eqb c "," then
                        match members value fuel' r2 with
                        | Some (kvs, r') => Some ((k, v) :: kvs, r')
                        | None => None
                        end
                      else if Ascii.eqb c "}" then Some ([(k, v)], r2) else None
                  | _ => None
                  end
                else None
            | _ => None
            end
          else None
      | EmptyString => None
      end
  end.

Fixpoint value (fuel : nat) (s : string) : option (JSON * string) :=
  match fuel with
  | O => None
  | S fuel' =>
      match s with
      | String "n" (String "u" (String "l" (String "l" r))) => Some (JNull, r)
      | String "t" (String "r" (String "u" (String "e" r))) => Some (JBool true, r)
      | String "f" (String "a" (String "l" (String "s" (String "e" r)))) => Some (JBool false, r)
      | String "[" (String "]" r) => Some (JArray [], r)
      | String "{" (String "}" r) => Some (JObject [], r)
      | String c r =>
          if Ascii.eqb c dquote then
            match until_quote r with
            | Some (body, r') => Some (JString body, r')
            | None => None
            end
          else if Ascii.eqb c "[" then
            match elements (value fuel') fuel' r with
            | Some (vs, r') => Some (JArray vs, r')
            | None => None
            end
          else if Ascii.eqb c "{" then
            match members (value fuel') fuel' r with
            | Some (kvs, r') => Some (JObject kvs, r')
            | None => None
            end
          else
            match number s with
            | Some (n, r') => Some (JInt n, r')
            | None => None
            end
      | EmptyString => None
      end
  end.

Definition loads (s : string) : option JSON :=
  match value (S (String.length s)) s with
  | Some (v, EmptyString) => Some v
  | _ => None
  end.

End SampleJson.

(** ** [meteocat_client.py] *)

(** One invocation of a client method, or of the tool of the same name. *)
Inductive Call : Type :=
| GetMunicipalities
| GetRegions
| GetWeatherSymbols
| GetAllStations (state date : option string)
| GetStation (station_code : string)
| GetAllVariables
| GetStationVariables (station_code : string) (state : option string)
| GetLatestReadings (variable_code : Z) (station_code : option string)
| GetReadings (variable_code year month day : Z) (station_code : option string)
| GetMunicipalForecast72h (municipality_code : string)
| GetMunicipalForecast8days (municipality_code : string)
| GetGeneralForecast (year month day : Z)
| GetRegionalForecast (year month day : Z)
| GetUviForecast (municipality_code : string).

Module meteocat_client.

Record MeteocatClient : Type := mkClient {
  api_key : string;
  headers : gmap string string
}.

(** [MeteocatClient(api_key)]; [api_key] is [None] when the caller has no
    key at all. *)
Definition __init__ (api_key : option string) : Eff unit MeteocatClient :=
  match api_key with
  | Some (String _ _ as key) =>
      mret {| api_key := key;
              headers := {[ "x-api-key" := key; "Accept" := "application/json" ]} |}
  | _ => Eff.raise (ValueError "METEOCAT_API_KEY is required")
  end.

(** The URL a call is turned into. *)
Definition url_of (call : Call) : string :=
  match call with
  | GetMunicipalities => Url.get_municipalities
  | GetRegions => Url.get_regions
  | GetWeatherSymbols => Url.get_weather_symbols
  | GetAllStations state date => Url.get_all_stations state date
  | GetStation station_code => Url.get_station station_code
  | GetAllVariables => Url.get_all_variables
  | GetStationVariables station_code state => Url.get_station_variables station_code state
  | GetLatestReadings variable_code station_code =>
      Url.get_latest_readings variable_code station_code
  | GetReadings variable_code year month day station_code =>
      Url.get_readings variable_code year month day station_code
  | GetMunicipalForecast72h municipality_code =>
      Url.get_municipal_forecast_72h municipality_code
  | GetMunicipalForecast8days municipality_code =>
      Url.get_municipal_forecast_8days municipality_code
  | GetGeneralForecast year month day => Url.get_general_forecast year month day
  | GetRegionalForecast year month day => Url.get_regional_forecast year month day
  | GetUviForecast municipality_code => Url.get_uvi_forecast municipality_code
  end.

Section Methods.

(** [response.json()]: the decoder of the HTTP library, [None] where it
    raises on a body that is not JSON. *)
Context (json_loads : string → option JSON).

Definition _request (url : string) : Eff MeteocatClient JSON :=
  self ← Eff.get;
  response ← Eff.http_get url (headers self);
  if negb (status_code response =? 200) then
    Eff.raise (Exception ("Meteocat API error (" +:+ Py.str_int (status_code response)
                          +:+ "): " +:+ text response))
  else
    match json_loads (text response) with
    | Some value => mret value
    | None => Eff.raise JSONDecodeError
    end.

Definition get_municipalities : Eff MeteocatClient JSON :=
  _request Url.get_municipalities.
Definition get_regions : Eff MeteocatClient JSON :=
  _request Url.get_regions.
Definition get_weather_symbols : Eff MeteocatClient JSON :=
  _request Url.get_weather_symbols.
Definition get_all_stations (state date : option string) : Eff MeteocatClient JSON :=
  _request (Url.get_all_stations state date).
Definition get_station (station_code : string) : Eff MeteocatClient JSON :=
  _request (Url.get_station station_code).
Definition get_station_variables (station_code : string) (state : option string)
  : Eff MeteocatClient JSON :=
  _request (Url.get_station_variables station_code state).
Definition get_all_variables : Eff MeteocatClient JSON :=
  _request Url.get_all_variables.
Definition get_latest_readings (variable_code : Z) (station_code : option string)
  : Eff MeteocatClient JSON :=
  _request (Url.get_latest_readings variable_code station_code).
Definition get_readings (variable_code year month day : Z) (station_code : option string)
  : Eff MeteocatClient JSON :=
  _request (Url.get_readings variable_code year month day station_code).
Definition get_municipal_forecast_72h (municipality_code : string) : Eff MeteocatClient JSON :=
  _request (Url.get_municipal_forecast_72h municipality_code).
Definition get_municipal_forecast_8days (municipality_code : string)
  : Eff MeteocatClient JSON :=
  _request (Url.get_municipal_forecast_8days municipality_code).
Definition get_general_forecast (year month day : Z) : Eff MeteocatClient JSON :=
  _request (Url.get_general_forecast year month day).
Definition get_regional_forecast (year month day : Z) : Eff MeteocatClient JSON :=
  _request (Url.get_regional_forecast year month day).
Definition get_uvi_forecast (municipality_code : string) : Eff MeteocatClient JSON :=
  _request (Url.get_uvi_forecast municipality_code).

(** The method a call names, applied to the call's arguments. *)
Definition invoke (call : Call) : Eff MeteocatClient JSON :=
  match call with
  | GetMunicipalities => get_municipalities
  | GetRegions => get_regions
  | GetWeatherSymbols => get_weather_symbols
  | GetAllStations state date => get_all_stations state date
  | GetStation station_code => get_station station_code
  | GetAllVariables => get_all_variables
  | GetStationVariables station_code state => get_station_variables station_code state
  | GetLatestReadings variable_code station_code =>
      get_latest_readings variable_code station_code
  | GetReadings variable_code year month day station_code =>
      get_readings variable_code year month day station_code
  | GetMunicipalForecast72h municipality_code => get_municipal_forecast_72h municipality_code
  | GetMunicipalForecast8days municipality_code =>
      get_municipal_forecast_8days municipality_code
  | GetGeneralForecast year month day => get_general_forecast year month day
  | GetRegionalForecast year month day => get_regional_forecast year month day
  | GetUviForecast municipality_code => get_uvi_forecast municipality_code
  end.

(** Several calls on one client, one after the other; a call that raises
    does not stop the ones after it. *)
Fixpoint invoke_all (calls : list Call) : Eff MeteocatClient (list (result JSON)) :=
  match calls with
  | [] => mret []
  | call :: rest =>
      λ net self,
        let '(self1, sent1, r) := invoke call net self in
        let '(self2, sent2, rs) := invoke_all rest net self1 in
        (self2, sent1 ++ sent2,
         match rs with
         | Ok l => Ok (r :: l)
         | Raise e => Raise e
         end)
  end.

End Methods.

End meteocat_client.

(** ** [server.py] *)

Module server.
Import meteocat_client.

Definition not_configured : string := "Error: Server not configured (missing API key)".

(** Module level: [api_key = os.environ.get("METEOCAT_API_KEY")] and
    [client = MeteocatClient(api_key) if api_key else None]. *)
Definition client (api_key : option string) : Eff unit (option MeteocatClient) :=
  if Py.truthy api_key then
    c ← __init__ api_key; mret (Some c)
  else mret None.

Section Tools.

Context (json_loads : string → option JSON).
(** [str(result)] on a decoded value. *)
Context (py_str : JSON → string).

(** The body every tool has, over the global [client]:
    [if not client: return "Error: ..."; result = await client.m(...);
    return str(result)]. *)
Definition tool (method : Eff MeteocatClient JSON) : Eff (option MeteocatClient) string :=
  λ net client,
    match client with
    | None => (client, [], Ok not_configured)
    | Some self =>
        let '(self', sent, r) := method net self in
        (Some self', sent,
         match r with
         | Ok result => Ok (py_str result)
         | Raise e => Raise e
         end)
    end.

Definition get_municipalities := tool (meteocat_client.get_municipalities json_loads).
Definition get_regions := tool (meteocat_client.get_regions json_loads).
Definition get_weather_symbols := tool (meteocat_client.get_weather_symbols json_loads).
Definition get_all_stations (state date : option string) :=
  tool (meteocat_client.get_all_stations json_loads state date).
Definition get_station (station_code : string) :=
  tool (meteocat_client.get_station json_loads station_code).
Definition get_all_variables := tool (meteocat_client.get_all_variables json_loads).
Definition get_station_variables (station_code : string) (state : option string) :=
  tool (meteocat_client.get_station_variables json_loads station_code state).
Definition get_latest_readings (variable_code : Z) (station_code : option string) :=
  tool (meteocat_client.get_latest_readings json_loads variable_code station_code).
Definition get_readings (variable_code year month day : Z) (station_code : option string) :=
  tool (meteocat_client.get_readings json_loads variable_code year month day station_code).
Definition get_municipal_forecast_72h (municipality_code : string) :=
  tool (meteocat_client.get_municipal_forecast_72h json_loads municipality_code).
Definition get_municipal_forecast_8days (municipality_code : string) :=
  tool (meteocat_client.get_municipal_forecast_8days json_loads municipality_code).
Definition get_general_forecast (year month day : Z) :=
  tool (meteocat_client.get_general_forecast json_loads year month day).
Definition get_regional_forecast (year month day : Z) :=
  tool (meteocat_client.get_regional_forecast json_loads year month day).
Definition get_uvi_forecast (municipality_code : string) :=
  tool (meteocat_client.get_uvi_forecast json_loads municipality_code).

(** The registry of [mcp.tool]: the tool a call names. *)
Definition call_tool (call : Call) : Eff (option MeteocatClient) string :=
  match call with
  | GetMunicipalities => get_municipalities
  | GetRegions => get_regions
  | GetWeatherSymbols => get_weather_symbols
  | GetAllStations state date => get_all_stations state date
  | GetStation station_code => get_station station_code
  | GetAllVariables => get_all_variables
  | GetStationVariables station_code state => get_station_variables station_code state
  | GetLatestReadings variable_code station_code =>
      get_latest_readings variable_code station_code
  | GetReadings variable_code year month day station_code =>
      get_readings variable_code year month day station_code
  | GetMunicipalForecast72h municipality_code => get_municipal_forecast_72h municipality_code
  | GetMunicipalForecast8days municipality_code =>
      get_municipal_forecast_8days municipality_code
  | GetGeneralForecast year month day => get_general_forecast year month day
  | GetRegionalForecast year month day => get_regional_forecast year month day
  | GetUviForecast municipality_code => get_uvi_forecast municipality_code
  end.

End Tools.

End server.

(** ** The documented URL templates *)

(** The templates as the interface description words them, for comparison
    with what [meteocat_client.url_of] builds: a base, the path with its
    placeholders filled in ([{YYYY}] four digits, [{MM}] and [{DD}] two
    digits), and the bracketed query with the parameters that were supplied. *)
Module Template.

Definition reference_base : string := REFERENCIA_BASE_URL.
Definition xema_base : string := XEMA_BASE_URL.
Definition forecast_base : string := PRONOSTIC_BASE_URL.

Definition digit (d : Z) : ascii := ascii_of_nat (48 + Z.to_nat d).

Definition MM (n : Z) : string :=
  String (digit (n / 10)) (String (digit (n mod 10)) "").
Definition DD (n : Z) : string := MM n.
Definition YYYY (n : Z) : string :=
  String (digit (n / 1000)) (String (digit (n / 100 mod 10))
    (String (digit (n / 10 mod 10)) (String (digit (n mod 10)) ""))).

(** A code written in decimal. *)
Definition code (n : Z) : string := pretty n.

(** [[?k1=&k2=]]: the supplied parameters only, in the documented order. *)
Definition query (params : list (string * option string)) : string :=
  let supplied :=
    flat_map (λ p, match p.2 with
                   | Some v => [p.1 +:+ "=" +:+ v]
                   | None => []
                   end) params in
  match supplied with
  | [] => ""
  | _ :: _ => "?" +:+ Py.join "&" supplied
  end.

Definition url (call : Call) : string :=
  match call with
  | GetMunicipalities => reference_base +:+ "/municipis"
  | GetRegions => reference_base +:+ "/comarques"
  | GetWeatherSymbols => reference_base +:+ "/simbols"
  | GetAllStations state date =>
      xema_base +:+ "/estacions/metadades" +:+ query [("estat", state); ("data", date)]
  | GetStation c => xema_base +:+ "/estacions/" +:+ c +:+ "/metadades"
  | GetAllVariables => xema_base +:+ "/variables/metadades"
  | GetStationVariables c state =>
      xema_base +:+ "/estacions/" +:+ c +:+ "/variables/metadades"
      +:+ query [("estat", state)]
  | GetLatestReadings v station =>
      xema_base +:+ "/variables/mesurades/" +:+ code v +:+ "/ultimes"
      +:+ query [("codiEstacio", station)]
  | GetReadings v y m d station =>
      xema_base +:+ "/variables/mesurades/" +:+ code v +:+ "/" +:+ YYYY y +:+ "/"
      +:+ MM m +:+ "/" +:+ DD d +:+ query [("codiEstacio", station)]
  | GetMunicipalForecast72h c => forecast_base +:+ "/municipalHoraria/" +:+ c
  | GetMunicipalForecast8days c => forecast_base +:+ "/municipal/" +:+ c
  | GetGeneralForecast y m d =>
      forecast_base +:+ "/catalunya/" +:+ YYYY y +:+ "/" +:+ MM m +:+ "/" +:+ DD d
  | GetRegionalForecast y m d =>
      forecast_base +:+ "/comarcal/" +:+ YYYY y +:+ "/" +:+ MM m +:+ "/" +:+ DD d
  | GetUviForecast c => forecast_base +:+ "/uvi/" +:+ c
  end.

(** Valid parameters: a supplied optional string is not empty, a variable
    code is positive, the year has four digits, the month is in 1..12 and
    the day in 1..31. *)
Definition valid_optional (s : option string) : bool :=
  match s with
  | Some EmptyString => false
  | _ => true
  end.

Definition valid_date (y m d : Z) : bool :=
  (1000 <=? y) && (y <=? 9999) && (1 <=? m) && (m <=? 12) && (1 <=? d) && (d <=? 31).

Definition valid (call : Call) : bool :=
  match call with
  | GetAllStations state date => valid_optional state && valid_optional date
  | GetStationVariables _ state => valid_optional state
  | GetLatestReadings v station => (0 <? v) && valid_optional station
  | GetReadings v y m d station => (0 <? v) && valid_date y m d && valid_optional station
  | GetGeneralForecast y m d | GetRegionalForecast y m d => valid_date y m d
  | _ => true
  end.

End Template.

(** ** Reading a URL back *)

(** How the receiving side reads a URL: the path is what stands before the
    first [?], cut at [/]; the query is what stands after it, cut at [&],
    each piece cut at its first [=]. *)
Module Query.

Fixpoint has_char (c : ascii) (s : string) : bool :=
  match s with
  | EmptyString => false
  | String a r => Ascii.eqb a c || has_char c r
  end.

(** The text before the first [c] and the text after it. *)
Fixpoint cut (c : ascii) (s : string) : option (string * string) :=
  match s with
  | EmptyString => None
  | String a r =>
      if Ascii.eqb a c then Some ("", r)
      else match cut c r with
           | Some (before, after) => Some (String a before, after)
           | None => None
           end
  end.

(** [s.split(c)]. *)
Fixpoint split (c : ascii) (s : string) : list string :=
  match s with
  | EmptyString => [""]
  | String a r =>
      if Ascii.eqb a c then "" :: split c r
      else match split c r with
           | piece :: pieces => String a piece :: pieces
           | [] => [String a ""]
           end
  end.

Definition path (url : string) : string :=
  match cut "?" url with
  | Some (before, _) => before
  | None => url
  end.

Definition segments (url : string) : list string := split "/" (path url).

Definition param (piece : string) : string * string :=
  match cut "=" piece with
  | Some kv => kv
  | None => (piece, "")
  end.

Definition params (url : string) : list (string * string) :=
  match cut "?" url with
  | Some (_, q) => map param (split "&" q)
  | None => []
  end.

Fixpoint assoc (key : string) (l : list (string * string)) : option string :=
  match l with
  | [] => None
  | (k, v) :: rest => if String.eqb k key then Some v else assoc key rest
  end.

Definition lookup (key url : string) : option string := assoc key (params url).

(** The characters of a printed integer: digits and the sign. *)
Definition numeric (c : ascii) : bool :=
  match Ascii.is_nat c with
  | Some _ => true
  | None => Ascii.eqb c "-"
  end.

End Query.

(** The optional arguments of a call, each with the query parameter it is
    sent as. *)
Definition optional_args (call : Call) : list (string * option string) :=
  match call with
  | GetAllStations state date => [("estat", state); ("data", date)]
  | GetStationVariables _ state => [("estat", state)]
  | GetLatestReadings _ station_code => [("codiEstacio", station_code)]
  | GetReadings _ _ _ _ station_code => [("codiEstacio", station_code)]
  | _ => []
  end.

(** The string arguments of a call that are written into the path. *)
Definition path_args (call : Call) : list string :=
  match call with
  | GetStation c | GetStationVariables c _ => [c]
  | GetMunicipalForecast72h c | GetMunicipalForecast8days c | GetUviForecast c => [c]
  | _ => []
  end.

(** The optional arguments that are sent: those that are true as Python
    values, that is, neither [None] nor the empty string. *)
Definition present (args : list (string * option string)) : list (string * string) :=
  flat_map (λ p, if Py.truthy p.2 then [(p.1, Py.fstr p.2)] else []) args.

(** Arguments that are plain tokens: no [?] in a string of the path, no [&]
    in a value of the query. *)
Definition well_formed (call : Call) : bool :=
  forallb (λ s, negb (Query.has_char "?" s)) (path_args call)
  && forallb (λ p, match p.2 with
                   | Some v => negb (Query.has_char "&" v)
                   | None => true
                   end) (optional_args call).

(** A call with its optional arguments left out. *)
Definition strip_optional (call : Call) : Call :=
  match call with
  | GetAllStations _ _ => GetAllStations None None
  | GetStationVariables c _ => GetStationVariables c None
  | GetLatestReadings v _ => GetLatestReadings v None
  | GetReadings v y m d _ => GetReadings v y m d None
  | _ => call
  end.

(** The text of a query with the parameters [l]; nothing when there are none. *)
Definition query_suffix (l : list (string * string)) : string :=
  match l with
  | [] => ""
  | _ :: _ => "?" +:+ Py.join "&" (map (λ kv, kv.1 +:+ "=" +:+ kv.2) l)
  end.

(** A key and a value that survive being written into a query. *)
Definition plain (kv : string * string) : Prop :=
  Query.has_char "=" kv.1 = false ∧ Query.has_char "&" kv.1 = false
  ∧ Query.has_char "&" kv.2 = false.

(** The success statuses of HTTP: 200 to 299. *)
Definition success_status (status : Z) : bool := (200 <=? status) && (status <=? 299).

(** The date of a date-based call. *)
Definition date_of (call : Call) : option (Z * Z * Z) :=
  match call with
  | GetReadings _ y m d _ => Some (y, m, d)
  | GetGeneralForecast y m d => Some (y, m, d)
  | GetRegionalForecast y m d => Some (y, m, d)
  | _ => None
  end.

(** A run of the server: the tools named by [calls] are called one after
    the other on the global [client]; a call that raises does not stop the
    ones after it, and the result of each is kept. *)
Fixpoint serve (json_loads : string → option JSON) (py_str : JSON → string)
    (calls : list Call) : Eff (option meteocat_client.MeteocatClient) (list (result string)) :=
  match calls with
  | [] => mret []
  | call :: rest =>
      λ net client,
        let '(client1, sent1, r) := server.call_tool json_loads py_str call net client in
        let '(client2, sent2, rs) := serve json_loads py_str rest net client1 in
        (client2, sent1 ++ sent2,
         match rs with
         | Ok l => Ok (r :: l)
         | Raise e => Raise e
         end)
  end.

(** An optional argument as the methods test it: the empty string counts
    as no argument. *)
Definition omit_empty (s : option string) : option string :=
  if Py.truthy s then s else None.

(** A call with every empty optional argument replaced by no argument. *)
Definition normalize (call : Call) : Call :=
  match call with
  | GetAllStations state date => GetAllStations (omit_empty state) (omit_empty date)
  | GetStationVariables c state => GetStationVariables c (omit_empty state)
  | GetLatestReadings v station => GetLatestReadings v (omit_empty station)
  | GetReadings v y m d station => GetReadings v y m d (omit_empty station)
  | _ => call
  end.

(** Arguments that hold no separator of the place they are written to: no
    [?] and no [/] in a string of the path, no [&] in a value of the query. *)
Definition plain_call (call : Call) : bool :=
  forallb (λ s, negb (Query.has_char "?" s) && negb (Query.has_char "/" s)) (path_args call)
  && forallb (λ p, match p.2 with
                   | Some v => negb (Query.has_char "&" v)
                   | None => true
                   end) (optional_args call).

(** The API a method belongs to: the segment of the base URL that names it. *)
Definition api_of (call : Call) : string :=
  match call with
  | GetMunicipalities | GetRegions | GetWeatherSymbols => "referencia"
  | GetAllStations _ _ | GetStation _ | GetAllVariables | GetStationVariables _ _
  | GetLatestReadings _ _ | GetReadings _ _ _ _ _ => "xema"
  | GetMunicipalForecast72h _ | GetMunicipalForecast8days _ | GetGeneralForecast _ _ _
  | GetRegionalForecast _ _ _ | GetUviForecast _ => "pronostic"
  end.

(** The segments of the three base URLs, cut at [/]. *)
Definition base_segments (api : string) : list string :=
  ["https:"; ""; "api.meteo.cat"; api; "v1"].

(** The segments a method writes after the base. *)
Definition tail_segments (call : Call) : list string :=
  match call with
  | GetMunicipalities => ["municipis"]
  | GetRegions => ["comarques"]
  | GetWeatherSymbols => ["simbols"]
  | GetAllStations _ _ => ["estacions"; "metadades"]
  | GetStation c => ["estacions"; c; "metadades"]
  | GetAllVariables => ["variables"; "metadades"]
  | GetStationVariables c _ => ["estacions"; c; "variables"; "metadades"]
  | GetLatestReadings v _ => ["variables"; "mesurades"; Py.str_int v; "ultimes"]
  | GetReadings v y m d _ =>
      ["variables"; "mesurades"; Py.str_int v; Py.str_int y; Py.format_02d m; Py.format_02d d]
  | GetMunicipalForecast72h c => ["municipalHoraria"; c]
  | GetMunicipalForecast8days c => ["municipal"; c]
  | GetGeneralForecast y m d => ["catalunya"; Py.str_int y; Py.format_02d m; Py.format_02d d]
  | GetRegionalForecast y m d => ["comarcal"; Py.str_int y; Py.format_02d m; Py.format_02d d]
  | GetUviForecast c => ["uvi"; c]
  end.

(** ** Reading a URL as RFC 3986 does *)

(** The parts of a URL as the receiving side takes them (RFC 3986, section
    3): the fragment is cut off at the first [#] and is not sent; the query
    is what follows the first [?] of the rest; what stands before it is
    [scheme://authority/path], cut at [/]; and the dot segments [.] and [..]
    of the path are removed (section 5.2.4) before the request is made. *)
Module Uri.

(** The unreserved characters (section 2.3): letters, digits, [-], [.],
    [_] and [~]. They are never escaped and never separate anything. *)
Definition unreserved (c : ascii) : bool :=
  let n := nat_of_ascii c in
  (Nat.leb 65 n && Nat.leb n 90) || (Nat.leb 97 n && Nat.leb n 122)
  || (Nat.leb 48 n && Nat.leb n 57)
  || Nat.eqb n 45 || Nat.eqb n 46 || Nat.eqb n 95 || Nat.eqb n 126.

Fixpoint token (s : string) : bool :=
  match s with
  | EmptyString => true
  | String a r => unreserved a && token r
  end.

Definition dot_segment (s : string) : bool := String.eqb s "." || String.eqb s "..".

Definition without_fragment (url : string) : string :=
  match Query.cut "#" url with
  | Some (before, _) => before
  | None => url
  end.

Definition query (url : string) : option string :=
  match Query.cut "?" (without_fragment url) with
  | Some (_, q) => Some q
  | None => None
  end.

Definition hierarchy (url : string) : string :=
  match Query.cut "?" (without_fragment url) with
  | Some (before, _) => before
  | None => without_fragment url
  end.

Definition params (url : string) : list (string * string) :=
  match query url with
  | Some q => map Query.param (Query.split "&" q)
  | None => []
  end.

Definition lookup (key url : string) : option string := Query.assoc key (params url).

(** Scheme (with its colon), authority and path segments of a URL of the
    form [scheme://authority/path]. *)
Definition parts (url : string) : option (string * string * list string) :=
  match Query.split "/" (hierarchy url) with
  | scheme :: EmptyString :: authority :: path => Some (scheme, authority, path)
  | _ => None
  end.

(** Removal of dot segments, on the segments of a path, [out] holding the
    segments kept so far, last first: [.] is dropped, [..] drops the segment
    before it as well, and never climbs above the root; a dot segment at the
    end leaves an empty last segment. *)
Fixpoint remove_dots (out segs : list string) : list string :=
  match segs with
  | [] => rev out
  | s :: rest =>
      if String.eqb s "." then
        match rest with
        | [] => rev ("" :: out)
        | _ :: _ => remove_dots out rest
        end
      else if String.eqb s ".." then
        match rest with
        | [] => rev ("" :: tl out)
        | _ :: _ => remove_dots (tl out) rest
        end
      else remove_dots (s :: out) rest
  end.

(** What a request for a URL asks for: scheme, authority, the path with its
    dot segments removed, and the query. *)
Definition target (url : string) : option (string * string * list string * option string) :=
  match parts url with
  | Some (scheme, authority, path) =>
      Some (scheme, authority, remove_dots [] path, query url)
  | None => None
  end.

End Uri.

(** Arguments that are tokens: every string of the path and every supplied
    value of the query is made of unreserved characters only. *)
Definition token_call (call : Call) : bool :=
  forallb Uri.token (path_args call)
  && forallb (λ p, match p.2 with
                   | Some v => Uri.token v
                   | None => true
                   end) (optional_args call).

(** Token arguments of which no path string is a dot segment. *)
Definition dotless_call (call : Call) : bool :=
  token_call call && forallb (λ s, negb (Uri.dot_segment s)) (path_args call).

(** The text of the query the parameters [l] are sent as, if any. *)
Definition query_text (l : list (string * string)) : option string :=
  match l with
  | [] => None
  | _ :: _ => Some (Py.join "&" (map (λ kv, kv.1 +:+ "=" +:+ kv.2) l))
  end.

Example sample_roundtrip :
  let v := JArray [JInt 1; JObject [("codi", JString "UG"); ("ok", JBool true)]; JNull; JInt (-7)] in
  SampleJson.loads (SampleJson.dumps v) = Some v
  ∧ SampleJson.loads "not found" = None
  ∧ SampleJson.loads "[1,2" = None.
Proof. vm_compute. repeat split; reflexivity. Qed.

Example url_examples :
  Url.get_readings 32 2024 3 7 (Some "UG")
  = "https://api.meteo.cat/xema/v1/variables/mesurades/32/2024/03/07?codiEstacio=UG"
  ∧ Url.get_all_stations (Some "ope") (Some "2024-03-07Z")
    = "https://api.meteo.cat/xema/v1/estacions/metadades?estat=ope&data=2024-03-07Z"
  ∧ map Py.format_02d [3; 12; 31; 0; 13; 100; -3; -12]
    = ["03"; "12"; "31"; "00"; "13"; "100"; "-3"; "-12"]
  ∧ Query.params (Url.get_all_stations (Some "ope") (Some "2024-03-07Z"))
    = [("estat", "ope"); ("data", "2024-03-07Z")]
  ∧ Query.segments (Url.get_readings 32 2024 3 7 (Some "U/G"))
    = ["https:"; ""; "api.meteo.cat"; "xema"; "v1"; "variables"; "mesurades"; "32"; "2024"; "03"; "07"]
  ∧ Template.url (GetReadings 32 2024 3 7 (Some "UG"))
    = Url.get_readings 32 2024 3 7 (Some "UG").
Proof. vm_compute. repeat split; reflexivity. Qed.

(** * Facts about strings *)

Section StringFacts.

Lemma app_nil_l (s : string) : "" +:+ s = s.
Proof. reflexivity. Qed.

Lemma app_cons (a : ascii) (s t : string) : String a s +:+ t = String a (s +:+ t).
Proof. reflexivity. Qed.

Lemma app_nil_r (s : string) : s +:+ "" = s.
Proof. induction s as [|a s IH]; [reflexivity|]. rewrite app_cons, IH. reflexivity. Qed.

Lemma app_assoc (s t u : string) : (s +:+ t) +:+ u = s +:+ t +:+ u.
Proof.
  induction s as [|a s IH]; [reflexivity|].
  rewrite !app_cons, IH. reflexivity.
Qed.

Lemma app_length (s t : string) :
  String.length (s +:+ t) = (String.length s + String.length t)%nat.
Proof.
  induction s as [|a s IH]; [reflexivity|].
  rewrite app_cons. simpl. rewrite IH. reflexivity.
Qed.

Lemma has_char_app (c : ascii) (s t : string) :
  Query.has_char c (s +:+ t) = Query.has_char c s || Query.has_char c t.
Proof.
  induction s as [|a s IH]; [reflexivity|].
  rewrite app_cons. simpl. rewrite IH, orb_assoc. reflexivity.
Qed.

Lemma cut_absent (c : ascii) (s : string) :
  Query.has_char c s = false → Query.cut c s = None.
Proof.
  induction s as [|a s IH]; [reflexivity|]. simpl.
  destruct (Ascii.eqb a c); [discriminate|]. simpl.
  intros H. rewrite (IH H). reflexivity.
Qed.

Lemma cut_first (c : ascii) (s t : string) :
  Query.has_char c s = false → Query.cut c (s +:+ String c t) = Some (s, t).
Proof.
  induction s as [|a s IH].
  - intros _. rewrite app_nil_l. simpl. rewrite Ascii.eqb_refl. reflexivity.
  - rewrite app_cons. simpl. destruct (Ascii.eqb a c); [discriminate|]. simpl.
    intros H. rewrite (IH H). reflexivity.
Qed.

Lemma split_nonempty (c : ascii) (s : string) : Query.split c s ≠ [].
Proof.
  destruct s as [|a s]; [discriminate|]. simpl.
  destruct (Ascii.eqb a c); [discriminate|].
  destruct (Query.split c s); discriminate.
Qed.

Lemma split_absent (c : ascii) (s : string) :
  Query.has_char c s = false → Query.split c s = [s].
Proof.
  induction s as [|a s IH]; [reflexivity|]. simpl.
  destruct (Ascii.eqb a c); [discriminate|]. simpl.
  intros H. rewrite (IH H). reflexivity.
Qed.

Lemma split_app (c : ascii) (s t : string) :
  Query.split c (s +:+ String c t) = Query.split c s ++ Query.split c t.
Proof.
  induction s as [|a s IH].
  - rewrite app_nil_l. simpl. rewrite Ascii.eqb_refl. reflexivity.
  - rewrite app_cons. simpl. destruct (Ascii.eqb a c).
    + rewrite IH. reflexivity.
    + rewrite IH. pose proof (split_nonempty c s) as Hne.
      destruct (Query.split c s) as [|piece pieces]; [congruence|]. reflexivity.
Qed.

Lemma has_char_cons (c a : ascii) (s : string) :
  Query.has_char c (String a s) = Ascii.eqb a c || Query.has_char c s.
Proof. reflexivity. Qed.

Lemma numeric_differs (a c : ascii) :
  Query.numeric a = true → Query.numeric c = false → Ascii.eqb a c = false.
Proof.
  intros Ha Hc. destruct (Ascii.eqb a c) eqn:E; [|reflexivity].
  apply Ascii.eqb_eq in E. congruence.
Qed.

Lemma pretty_N_char_numeric (x : N) : Query.numeric (pretty_N_char x) = true.
Proof. unfold pretty_N_char. repeat case_match; reflexivity. Qed.

Lemma pretty_N_go_chars (c : ascii) (x : N) (s : string) :
  Query.numeric c = false → Query.has_char c s = false →
  Query.has_char c (pretty_N_go x s) = false.
Proof.
  intros Hc. revert s.
  induction (N.lt_wf_0 x) as [x _ IH]; intros s Hs.
  destruct (decide (x = 0%N)) as [->|Hx]; [rewrite pretty_N_go_0; exact Hs|].
  rewrite pretty_N_go_step by lia.
  apply IH; [apply N.div_lt; lia|].
  rewrite has_char_cons, Hs.
  rewrite (numeric_differs _ c (pretty_N_char_numeric _) Hc). reflexivity.
Qed.

Lemma str_int_neg (p : positive) : Py.str_int (Zneg p) = "-" +:+ Py.str_int (Zpos p).
Proof. reflexivity. Qed.

Lemma str_int_pos (p : positive) : Py.str_int (Zpos p) = pretty_N_go (Npos p) "".
Proof. reflexivity. Qed.

Lemma str_int_chars (c : ascii) (n : Z) :
  Query.numeric c = false → Query.has_char c (Py.str_int n) = false.
Proof.
  intros Hc.
  assert (Hpos : ∀ p, Query.has_char c (Py.str_int (Zpos p)) = false).
  { intros p. rewrite str_int_pos. apply pretty_N_go_chars; [exact Hc|reflexivity]. }
  destruct n as [|p|p].
  - change (Py.str_int 0) with "0".
    rewrite has_char_cons. rewrite (numeric_differs "0" c eq_refl Hc). reflexivity.
  - apply Hpos.
  - rewrite str_int_neg, has_char_app, has_char_cons.
    rewrite (numeric_differs "-" c eq_refl Hc), Hpos. reflexivity.
Qed.

Lemma zeros_chars (c : ascii) (k : nat) :
  Query.numeric c = false → Query.has_char c (Py.zeros k) = false.
Proof.
  intros Hc. induction k as [|k IH]; [reflexivity|].
  change (Py.zeros (S k)) with (String "0" (Py.zeros k)).
  rewrite has_char_cons, IH, (numeric_differs "0" c eq_refl Hc). reflexivity.
Qed.

Lemma format_02d_chars (c : ascii) (n : Z) :
  Query.numeric c = false → Query.has_char c (Py.format_02d n) = false.
Proof.
  intros Hc. unfold Py.format_02d.
  rewrite !has_char_app, zeros_chars, str_int_chars by exact Hc.
  destruct (n <? 0); [|reflexivity].
  rewrite has_char_cons, (numeric_differs "-" c eq_refl Hc). reflexivity.
Qed.

Lemma pretty_N_go_length (x : N) (s : string) :
  (String.length s ≤ String.length (pretty_N_go x s))%nat.
Proof.
  revert s. induction (N.lt_wf_0 x) as [x _ IH]; intros s.
  destruct (decide (x = 0%N)) as [->|Hx]; [rewrite pretty_N_go_0; lia|].
  rewrite pretty_N_go_step by lia.
  etrans; [|apply IH, N.div_lt; lia]. simpl. lia.
Qed.

Lemma str_int_length_pos (p : positive) : (1 ≤ String.length (Py.str_int (Zpos p)))%nat.
Proof.
  rewrite str_int_pos, pretty_N_go_step by lia.
  etrans; [|apply pretty_N_go_length]. simpl. lia.
Qed.

Lemma str_int_length_large (n : Z) : 10 ≤ n → (2 ≤ String.length (Py.str_int n))%nat.
Proof.
  intros Hn. destruct n as [|p|p]; [lia| |lia].
  rewrite str_int_pos, pretty_N_go_step by lia.
  rewrite pretty_N_go_step by (apply N.div_str_pos; lia).
  etrans; [|apply pretty_N_go_length]. simpl. lia.
Qed.

(** [f"{n:02d}"] leaves a number of two or more digits as [str(n)]. *)
Lemma format_02d_large (n : Z) : 10 ≤ n → Py.format_02d n = Py.str_int n.
Proof.
  intros Hn. unfold Py.format_02d.
  destruct (Z.ltb_spec n 0) as [?|_]; [lia|].
  rewrite Z.abs_eq by lia. pose proof (str_int_length_large n Hn) as Hlen.
  replace (2 - (String.length "" + String.length (Py.str_int n)))%nat with 0%nat
    by (change (String.length "") with 0%nat; lia).
  reflexivity.
Qed.

(** [f"{n:02d}"] leaves a negative number as [str(n)]: the sign counts. *)
Lemma format_02d_negative (n : Z) : n < 0 → Py.format_02d n = Py.str_int n.
Proof.
  intros Hn. unfold Py.format_02d.
  destruct (Z.ltb_spec n 0) as [_|?]; [|lia].
  destruct n as [|p|p]; [lia|lia|].
  change (Z.abs (Z.neg p)) with (Z.pos p).
  pose proof (str_int_length_pos p) as Hlen.
  replace (2 - (String.length "-" + String.length (Py.str_int (Z.pos p))))%nat with 0%nat
    by (change (String.length "-") with 1%nat; lia).
  rewrite str_int_neg. reflexivity.
Qed.

Lemma range_check (P : Z → bool) (lo len : Z) :
  forallb P (seqZ lo len) = true → ∀ z, lo ≤ z < lo + len → P z = true.
Proof.
  intros Hall z Hz. rewrite forallb_forall in Hall.
  apply Hall, list_elem_of_In, elem_of_seqZ. exact Hz.
Qed.

(** A single digit gets one zero in front. *)
Lemma format_02d_small (n : Z) :
  0 ≤ n ≤ 9 → Py.format_02d n = String "0" (Py.str_int n).
Proof.
  intros Hn. apply String.eqb_eq.
  apply (range_check (λ z, String.eqb (Py.format_02d z) (String "0" (Py.str_int z))) 0 10);
    [vm_compute; reflexivity|lia].
Qed.

Lemma format_02d_MM (n : Z) : 1 ≤ n ≤ 31 → Py.format_02d n = Template.MM n.
Proof.
  intros Hn. apply String.eqb_eq.
  apply (range_check (λ z, String.eqb (Py.format_02d z) (Template.MM z)) 1 31);
    [vm_compute; reflexivity|lia].
Qed.

Lemma str_int_YYYY (n : Z) : 1000 ≤ n ≤ 9999 → Py.str_int n = Template.YYYY n.
Proof.
  intros Hn. apply String.eqb_eq.
  apply (range_check (λ z, String.eqb (Py.str_int z) (Template.YYYY z)) 1000 9000);
    [vm_compute; reflexivity|lia].
Qed.

End StringFacts.

(** * The client's URLs *)

Section UrlFacts.

Lemma valid_date_inv (y m d : Z) :
  Template.valid_date y m d = true → 1000 ≤ y ≤ 9999 ∧ 1 ≤ m ≤ 12 ∧ 1 ≤ d ≤ 31.
Proof. unfold Template.valid_date. rewrite !andb_true_iff. lia. Qed.

Lemma valid_optional_inv (s : option string) :
  Template.valid_optional s = true → s = None ∨ ∃ a r, s = Some (String a r).
Proof. destruct s as [[|a r]|]; [discriminate|right; eauto|left; reflexivity]. Qed.

(** Every method sends the URL [url_of] gives for it, to [_request]. *)
Lemma invoke_request (json_loads : string → option JSON) (call : Call) :
  meteocat_client.invoke json_loads call
  = meteocat_client._request json_loads (meteocat_client.url_of call).
Proof. destruct call; reflexivity. Qed.

(** [_request] sends one GET, with the client's headers, and leaves the
    client as it found it. *)
Lemma request_effects (json_loads : string → option JSON) (url : string)
    (net : Network) (self : meteocat_client.MeteocatClient) :
  Eff.state (meteocat_client._request json_loads url net self) = self
  ∧ Eff.sent (meteocat_client._request json_loads url net self)
    = [mkRequest url (meteocat_client.headers self)].
Proof.
  unfold meteocat_client._request, mbind, Eff_bind, Eff.bind, Eff.get, Eff.http_get.
  cbn. destruct (net _) as [response|e]; cbn; [|split; reflexivity].
  destruct (negb _); cbn; [split; reflexivity|].
  destruct (json_loads _); cbn; split; reflexivity.
Qed.

Lemma url_of_template (call : Call) :
  Template.valid call = true → meteocat_client.url_of call = Template.url call.
Proof.
  destruct call as [ | | |state date|c| |c state|v station|v y m d station|c|c|y m d|y m d|c];
    cbn [Template.valid]; intros Hv; try reflexivity.
  - apply andb_true_iff in Hv as [Hs Hd].
    apply valid_optional_inv in Hs as [->|(a & r & ->)];
      apply valid_optional_inv in Hd as [->|(a' & r' & ->)];
      cbn; rewrite ?app_assoc, ?app_nil_r; reflexivity.
  - apply valid_optional_inv in Hv as [->|(a & r & ->)];
      cbn; rewrite ?app_assoc, ?app_nil_r; reflexivity.
  - apply andb_true_iff in Hv as [_ Hs].
    apply valid_optional_inv in Hs as [->|(a & r & ->)];
      cbn; rewrite ?app_assoc, ?app_nil_r; reflexivity.
  - apply andb_true_iff in Hv as [Hv Hs]. apply andb_true_iff in Hv as [_ Hd].
    apply valid_date_inv in Hd as (Hy & Hm & Hd).
    cbn [meteocat_client.url_of Template.url]. unfold Url.get_readings, Template.DD.
    rewrite (format_02d_MM m), (format_02d_MM d), (str_int_YYYY y) by lia.
    apply valid_optional_inv in Hs as [->|(a & r & ->)];
      cbn; rewrite ?app_assoc, ?app_nil_r; reflexivity.
  - apply valid_date_inv in Hv as (Hy & Hm & Hd).
    cbn [meteocat_client.url_of Template.url]. unfold Url.get_general_forecast, Template.DD.
    rewrite (format_02d_MM m), (format_02d_MM d), (str_int_YYYY y) by lia. reflexivity.
  - apply valid_date_inv in Hv as (Hy & Hm & Hd).
    cbn [meteocat_client.url_of Template.url]. unfold Url.get_regional_forecast, Template.DD.
    rewrite (format_02d_MM m), (format_02d_MM d), (str_int_YYYY y) by lia. reflexivity.
Qed.

End UrlFacts.

(** C1. For every client operation invoked with valid parameters, the URL the
    client builds, and sends, is the documented template of that operation
    with the parameters filled in; in particular
    [get_readings(32, 2024, 3, 7, "UG")] builds
    [{xema-base}/variables/mesurades/32/2024/03/07?codiEstacio=UG], and the
    three reference operations build the fixed paths [/municipis],
    [/comarques] and [/simbols] under the reference base. *)
Theorem url_matches_template (call : Call) :
  Template.valid call = true →
  meteocat_client.url_of call = Template.url call
  ∧ (∀ json_loads net self,
       Eff.sent (meteocat_client.invoke json_loads call net self)
       = [mkRequest (Template.url call) (meteocat_client.headers self)])
  ∧ Url.get_readings 32 2024 3 7 (Some "UG")
    = XEMA_BASE_URL +:+ "/variables/mesurades/32/2024/03/07?codiEstacio=UG"
  ∧ Url.get_municipalities = REFERENCIA_BASE_URL +:+ "/municipis"
  ∧ Url.get_regions = REFERENCIA_BASE_URL +:+ "/comarques"
  ∧ Url.get_weather_symbols = REFERENCIA_BASE_URL +:+ "/simbols".
Proof.
  intros Hv. split; [exact (url_of_template call Hv)|]. split.
  - intros json_loads net self. rewrite invoke_request.
    rewrite <- (url_of_template call Hv). apply request_effects.
  - repeat split; vm_compute; reflexivity.
Qed.

Lemma url_matches_template_witness :
  Template.valid (GetReadings 32 2024 3 7 (Some "UG")) = true
  ∧ meteocat_client.url_of (GetReadings 32 2024 3 7 (Some "UG"))
    = "https://api.meteo.cat/xema/v1/variables/mesurades/32/2024/03/07?codiEstacio=UG".
Proof.
  split; [reflexivity|].
  etransitivity;
    [exact (proj1 (url_matches_template (GetReadings 32 2024 3 7 (Some "UG")) eq_refl))|].
  vm_compute. reflexivity.
Defined.

(** C10. Supplying the empty string for an optional string parameter builds
    exactly the URL that omitting the parameter builds, for every operation
    that has one ([get_all_stations(state="", date="")] builds the URL of
    [get_all_stations()]): presence is tested by truth value, and both [None]
    and the empty string are false. *)
Theorem empty_string_same_as_absent :
  Url.get_all_stations (Some "") (Some "") = Url.get_all_stations None None
  ∧ (∀ date, Url.get_all_stations (Some "") date = Url.get_all_stations None date)
  ∧ (∀ state, Url.get_all_stations state (Some "") = Url.get_all_stations state None)
  ∧ (∀ c, Url.get_station_variables c (Some "") = Url.get_station_variables c None)
  ∧ (∀ v, Url.get_latest_readings v (Some "") = Url.get_latest_readings v None)
  ∧ (∀ v y m d, Url.get_readings v y m d (Some "") = Url.get_readings v y m d None)
  ∧ (∀ s, Py.truthy s = false ↔ s = None ∨ s = Some "").
Proof.
  repeat split; try reflexivity.
  - destruct s as [[|a r]|]; [right|discriminate|left]; reflexivity.
  - intros [->| ->]; reflexivity.
Qed.


(** * Reading the client's URLs back *)

Section QueryFacts.

Lemma params_no_query (p : string) : Query.has_char "?" p = false → Query.params p = [].
Proof. intros Hp. unfold Query.params. rewrite (cut_absent _ _ Hp). reflexivity. Qed.

Lemma params_query (p q : string) :
  Query.has_char "?" p = false →
  Query.params (p +:+ "?" +:+ q) = map Query.param (Query.split "&" q).
Proof.
  intros Hp. unfold Query.params.
  change ("?" +:+ q) with (String "?" q). rewrite (cut_first _ _ _ Hp). reflexivity.
Qed.

Lemma path_no_query (p : string) : Query.has_char "?" p = false → Query.path p = p.
Proof. intros Hp. unfold Query.path. rewrite (cut_absent _ _ Hp). reflexivity. Qed.

Lemma path_query (p q : string) :
  Query.has_char "?" p = false → Query.path (p +:+ "?" +:+ q) = p.
Proof.
  intros Hp. unfold Query.path.
  change ("?" +:+ q) with (String "?" q). rewrite (cut_first _ _ _ Hp). reflexivity.
Qed.

Lemma param_pair (k v : string) :
  Query.has_char "=" k = false → Query.param (k +:+ "=" +:+ v) = (k, v).
Proof.
  intros Hk. unfold Query.param.
  change ("=" +:+ v) with (String "=" v). rewrite (cut_first _ _ _ Hk). reflexivity.
Qed.

Lemma split_join (c : ascii) (l : list string) :
  l ≠ [] → Forall (λ s, Query.has_char c s = false) l →
  Query.split c (Py.join (String c "") l) = l.
Proof.
  intros Hne Hall. induction Hall as [|x l Hx Hl IH]; [congruence|].
  destruct l as [|y r].
  - cbn. apply split_absent, Hx.
  - change (Py.join (String c "") (x :: y :: r))
      with (x +:+ String c (Py.join (String c "") (y :: r))).
    rewrite split_app, (split_absent _ _ Hx), IH by discriminate. reflexivity.
Qed.

Lemma params_suffix (p : string) (l : list (string * string)) :
  Query.has_char "?" p = false → Forall plain l →
  Query.params (p +:+ query_suffix l) = l.
Proof.
  intros Hp Hl. destruct l as [|kv l].
  - cbn. rewrite app_nil_r. apply params_no_query, Hp.
  - unfold query_suffix. rewrite (params_query _ _ Hp).
    rewrite split_join.
    + rewrite map_map. clear Hp. induction Hl as [|[k v] r (Hk & _ & _) Hr IH]; [reflexivity|].
      cbn [map fst snd]. rewrite (param_pair _ _ Hk), IH. reflexivity.
    + discriminate.
    + apply Forall_map. eapply Forall_impl; [exact Hl|].
      intros [k v] (_ & Hk & Hv). cbn [fst snd] in *.
      rewrite !has_char_app, Hk, Hv. reflexivity.
Qed.

Lemma path_suffix (p : string) (l : list (string * string)) :
  Query.has_char "?" p = false → Query.path (p +:+ query_suffix l) = p.
Proof.
  intros Hp. destruct l as [|kv l].
  - cbn. rewrite app_nil_r. apply path_no_query, Hp.
  - unfold query_suffix. apply path_query, Hp.
Qed.

Lemma url_shape (call : Call) :
  meteocat_client.url_of call
  = meteocat_client.url_of (strip_optional call) +:+ query_suffix (present (optional_args call)).
Proof.
  destruct call as [ | | |state date|c| |c state|v station|v y m d station|c|c|y m d|y m d|c];
    cbn [strip_optional optional_args present flat_map query_suffix];
    rewrite ?app_nil_r; try reflexivity.
  - destruct state as [[|a r]|], date as [[|a' r']|];
      cbn; rewrite ?app_assoc, ?app_nil_r; reflexivity.
  - destruct state as [[|a r]|]; cbn; rewrite ?app_assoc, ?app_nil_r; reflexivity.
  - destruct station as [[|a r]|]; cbn; rewrite ?app_assoc, ?app_nil_r; reflexivity.
  - destruct station as [[|a r]|]; cbn; rewrite ?app_assoc, ?app_nil_r; reflexivity.
Qed.

Lemma path_has_no_query (call : Call) :
  forallb (λ s, negb (Query.has_char "?" s)) (path_args call) = true →
  Query.has_char "?" (meteocat_client.url_of (strip_optional call)) = false.
Proof.
  intros Hp.
  destruct call; cbn [strip_optional meteocat_client.url_of path_args forallb] in *;
    try reflexivity;
    rewrite ?andb_true_r, ?negb_true_iff in Hp;
    unfold Url.get_station, Url.get_station_variables, Url.get_latest_readings,
      Url.get_readings, Url.get_municipal_forecast_72h, Url.get_municipal_forecast_8days,
      Url.get_general_forecast, Url.get_regional_forecast, Url.get_uvi_forecast;
    cbn [Py.truthy];
    rewrite ?has_char_app, ?Hp, ?(str_int_chars "?"), ?(format_02d_chars "?") by reflexivity;
    reflexivity.
Qed.

Lemma present_plain (call : Call) :
  well_formed call = true → Forall plain (present (optional_args call)).
Proof.
  unfold well_formed. intros Hw. apply andb_true_iff in Hw as [_ Hq].
  destruct call as [ | | |state date|c| |c state|v station|v y m d station|c|c|y m d|y m d|c];
    cbn [optional_args present flat_map]; try constructor.
  - destruct state as [[|a r]|], date as [[|a' r']|];
      cbn in Hq |- *; rewrite ?andb_true_iff, ?negb_true_iff in Hq;
      repeat constructor; cbn [fst snd]; tauto.
  - destruct state as [[|a r]|];
      cbn in Hq |- *; rewrite ?andb_true_iff, ?negb_true_iff in Hq;
      repeat constructor; cbn [fst snd]; tauto.
  - destruct station as [[|a r]|];
      cbn in Hq |- *; rewrite ?andb_true_iff, ?negb_true_iff in Hq;
      repeat constructor; cbn [fst snd]; tauto.
  - destruct station as [[|a r]|];
      cbn in Hq |- *; rewrite ?andb_true_iff, ?negb_true_iff in Hq;
      repeat constructor; cbn [fst snd]; tauto.
Qed.

Lemma in_present (k v : string) (args : list (string * option string)) :
  In (k, v) (present args) ↔ In (k, Some v) args ∧ v ≠ "".
Proof.
  unfold present. rewrite in_flat_map. split.
  - intros ([k' arg] & Hin & Hkv). cbn [fst snd] in Hkv.
    destruct arg as [[|a r]|]; cbn in Hkv; try tauto.
    destruct Hkv as [Heq|[]]. injection Heq as -> <-. split; [exact Hin|discriminate].
  - intros [Hin Hv]. exists (k, Some v). split; [exact Hin|].
    destruct v as [|a r]; [congruence|]. cbn. left. reflexivity.
Qed.

Lemma params_of_call (call : Call) :
  well_formed call = true →
  Query.params (meteocat_client.url_of call) = present (optional_args call).
Proof.
  intros Hw. rewrite url_shape.
  apply params_suffix; [|apply present_plain, Hw].
  apply path_has_no_query. unfold well_formed in Hw. apply andb_true_iff in Hw. tauto.
Qed.

Lemma split_date (P Y M D : string) :
  Query.has_char "/" Y = false → Query.has_char "/" M = false →
  Query.has_char "/" D = false →
  Query.split "/" (P +:+ "/" +:+ Y +:+ "/" +:+ M +:+ "/" +:+ D)
  = Query.split "/" P ++ [Y; M; D].
Proof.
  intros HY HM HD. change ("/" +:+ Y +:+ "/" +:+ M +:+ "/" +:+ D)
    with (String "/" (Y +:+ String "/" (M +:+ String "/" D))).
  rewrite !split_app, (split_absent _ Y HY), (split_absent _ M HM), (split_absent _ D HD).
  reflexivity.
Qed.

Lemma segments_of_date_call (call : Call) (y m d : Z) :
  date_of call = Some (y, m, d) →
  ∃ prefix, Query.segments (meteocat_client.url_of call)
            = prefix ++ [Py.str_int y; Py.format_02d m; Py.format_02d d].
Proof.
  intros Hdate. unfold Query.segments. rewrite url_shape, path_suffix.
  - destruct call; try discriminate; injection Hdate as -> -> ->;
      cbn [strip_optional meteocat_client.url_of];
      unfold Url.get_readings, Url.get_general_forecast, Url.get_regional_forecast;
      cbn [Py.truthy].
    + exists (Query.split "/" (XEMA_BASE_URL +:+ "/variables/mesurades/"
                               +:+ Py.str_int variable_code)).
      rewrite <- split_date
        by (apply str_int_chars || apply format_02d_chars; reflexivity).
      rewrite !app_assoc. reflexivity.
    + exists (Query.split "/" (PRONOSTIC_BASE_URL +:+ "/catalunya")).
      rewrite <- split_date
        by (apply str_int_chars || apply format_02d_chars; reflexivity).
      rewrite !app_assoc. reflexivity.
    + exists (Query.split "/" (PRONOSTIC_BASE_URL +:+ "/comarcal")).
      rewrite <- split_date
        by (apply str_int_chars || apply format_02d_chars; reflexivity).
      rewrite !app_assoc. reflexivity.
  - apply path_has_no_query. destruct call; try discriminate; reflexivity.
Qed.

End QueryFacts.

Section UriFacts.

Lemma token_has_char (c : ascii) (s : string) :
  Uri.unreserved c = false → Uri.token s = true → Query.has_char c s = false.
Proof.
  intros Hc. induction s as [|a s IH]; [reflexivity|].
  cbn [Uri.token]. intros H. apply andb_true_iff in H as [Ha Hs].
  rewrite has_char_cons, (IH Hs).
  destruct (Ascii.eqb a c) eqn:E; [|reflexivity].
  apply Ascii.eqb_eq in E. congruence.
Qed.

Lemma token_call_args (call : Call) :
  token_call call = true →
  Forall (λ s, Uri.token s = true) (path_args call)
  ∧ Forall (λ p, ∀ v, p.2 = Some v → Uri.token v = true) (optional_args call).
Proof.
  unfold token_call. intros H. apply andb_true_iff in H as [Hp Hq].
  rewrite forallb_forall in Hp. rewrite forallb_forall in Hq. split.
  - apply Forall_forall. intros s Hs%list_elem_of_In. exact (Hp s Hs).
  - apply Forall_forall. intros p Hin%list_elem_of_In v Hv.
    specialize (Hq p Hin). rewrite Hv in Hq. exact Hq.
Qed.

Lemma token_call_well_formed (call : Call) : token_call call = true → well_formed call = true.
Proof.
  intros H. destruct (token_call_args call H) as [Hp Hq].
  unfold well_formed. apply andb_true_iff. split; apply forallb_forall.
  - intros s Hs%list_elem_of_In. rewrite Forall_forall in Hp.
    rewrite (token_has_char "?" s eq_refl (Hp s Hs)). reflexivity.
  - intros p Hin%list_elem_of_In. rewrite Forall_forall in Hq. specialize (Hq p Hin).
    destruct (p.2) as [v|]; [|reflexivity].
    rewrite (token_has_char "&" v eq_refl (Hq v eq_refl)). reflexivity.
Qed.

Lemma has_char_join (c : ascii) (sep : string) (l : list string) :
  Query.has_char c sep = false → Forall (λ s, Query.has_char c s = false) l →
  Query.has_char c (Py.join sep l) = false.
Proof.
  intros Hsep Hl. induction Hl as [|x l Hx Hl IH]; [reflexivity|].
  destruct l as [|y r]; [exact Hx|].
  change (Py.join sep (x :: y :: r)) with (x +:+ sep +:+ Py.join sep (y :: r)).
  rewrite !has_char_app, Hx, Hsep, IH. reflexivity.
Qed.

(** A URL built from token arguments has no fragment. *)
Lemma url_has_no_fragment (call : Call) :
  token_call call = true → Query.has_char "#" (meteocat_client.url_of call) = false.
Proof.
  intros H. destruct (token_call_args call H) as [Hp Hq]. rewrite url_shape.
  rewrite has_char_app. apply orb_false_iff. split.
  - clear Hq H.
    destruct call; cbn [strip_optional meteocat_client.url_of path_args] in *;
      try reflexivity;
      repeat match goal with
             | H : Forall _ (_ :: _) |- _ => apply Forall_cons_1 in H as [? ?]
             end;
      unfold Url.get_station, Url.get_station_variables, Url.get_latest_readings,
        Url.get_readings, Url.get_municipal_forecast_72h, Url.get_municipal_forecast_8days,
        Url.get_general_forecast, Url.get_regional_forecast, Url.get_uvi_forecast;
      cbn [Py.truthy];
      rewrite ?has_char_app, ?(str_int_chars "#"), ?(format_02d_chars "#") by reflexivity;
      repeat match goal with
             | H : Uri.token ?s = true |- _ =>
                 rewrite (token_has_char "#" s eq_refl H); clear H
             end;
      reflexivity.
  - clear Hp H.
    assert (Hkv : Forall (λ kv : string * string, Query.has_char "#" (kv.1 +:+ "=" +:+ kv.2) = false)
                    (present (optional_args call))).
    { apply Forall_forall. intros [k v] Hin%list_elem_of_In.
      apply in_present in Hin as [Hin _]. cbn [fst snd].
      rewrite Forall_forall in Hq.
      pose proof (Hq (k, Some v) (proj2 (list_elem_of_In _ _) Hin) v eq_refl) as Hv.
      rewrite !has_char_app, (token_has_char "#" v eq_refl Hv).
      destruct call; cbn [optional_args In] in Hin; try tauto;
        repeat (destruct Hin as [[= <- _]|Hin]; [reflexivity|]); destruct Hin. }
    unfold query_suffix. destruct (present (optional_args call)) as [|kv l]; [reflexivity|].
    rewrite has_char_app. apply orb_false_iff. split; [reflexivity|].
    apply has_char_join; [reflexivity|]. apply Forall_map.
    eapply Forall_impl; [exact Hkv|]. intros x Hx. exact Hx.
Qed.

Lemma uri_without_fragment (url : string) :
  Query.has_char "#" url = false →
  Uri.params url = Query.params url ∧ Uri.hierarchy url = Query.path url.
Proof.
  intros H. unfold Uri.params, Uri.query, Uri.hierarchy, Uri.without_fragment.
  rewrite (cut_absent _ _ H). unfold Query.params, Query.path.
  destruct (Query.cut "?" url) as [[before q]|]; split; reflexivity.
Qed.

Lemma uri_params_of_call (call : Call) :
  token_call call = true →
  Uri.params (meteocat_client.url_of call) = present (optional_args call).
Proof.
  intros H. rewrite (proj1 (uri_without_fragment _ (url_has_no_fragment call H))).
  apply params_of_call, token_call_well_formed, H.
Qed.

End UriFacts.

(** C3, as amended. For every operation called with token arguments
    (strings of unreserved characters: letters, digits, [-], [.], [_] and
    [~]) the query of the URL, read as RFC 3986 reads it, holds exactly the
    optional arguments that were supplied with a non-empty value, each under
    its parameter name ([estat], [data], [codiEstacio]) and with the value
    supplied: an argument that is absent, or supplied as the empty string, is
    left out, and no parameter is ever sent with an empty value. *)
Theorem optional_parameter_sent_iff_nonempty (call : Call) :
  token_call call = true →
  Uri.params (meteocat_client.url_of call) = present (optional_args call)
  ∧ (∀ k v, In (k, v) (Uri.params (meteocat_client.url_of call))
            ↔ In (k, Some v) (optional_args call) ∧ v ≠ "")
  ∧ (∀ k arg, In (k, arg) (optional_args call) →
              Uri.lookup k (meteocat_client.url_of call)
              = if Py.truthy arg then arg else None).
Proof.
  intros Hw. split; [exact (uri_params_of_call call Hw)|]. split.
  - intros k v. rewrite (uri_params_of_call call Hw). apply in_present.
  - intros k arg Hin. unfold Uri.lookup. rewrite (uri_params_of_call call Hw). clear Hw.
    destruct call as [ | | |state date|c| |c state|v station|v y m d station|c|c|y m d|y m d|c];
      cbn [optional_args In] in Hin; try tauto.
    + destruct Hin as [[= <- <-]|[[= <- <-]|[]]];
        destruct state as [[|a r]|], date as [[|a' r']|]; reflexivity.
    + destruct Hin as [[= <- <-]|[]]; destruct state as [[|a r]|]; reflexivity.
    + destruct Hin as [[= <- <-]|[]]; destruct station as [[|a r]|]; reflexivity.
    + destruct Hin as [[= <- <-]|[]]; destruct station as [[|a r]|]; reflexivity.
Qed.

Lemma optional_parameter_sent_iff_nonempty_witness :
  token_call (GetAllStations (Some "ope") None) = true
  ∧ Uri.params (meteocat_client.url_of (GetAllStations (Some "ope") None))
    = [("estat", "ope")].
Proof.
  split; [reflexivity|].
  exact (proj1 (optional_parameter_sent_iff_nonempty (GetAllStations (Some "ope") None) eq_refl)).
Defined.

(** C3, as stated, fails: [get_all_stations(state="")] is called with the
    [state] argument supplied, and the URL it builds has no [estat]
    parameter. *)
Lemma optional_parameter_supplied_but_absent :
  ¬ (∀ call, token_call call = true →
       ∀ k arg, In (k, arg) (optional_args call) →
         (is_Some arg ↔ ∃ v, In (k, v) (Uri.params (meteocat_client.url_of call)))).
Proof.
  intros H.
  destruct (H (GetAllStations (Some "") None) eq_refl "estat" (Some "")
              (or_introl eq_refl)) as [Hsupplied _].
  destruct (Hsupplied (ex_intro _ "" eq_refl)) as [v Hin].
  vm_compute in Hin. exact Hin.
Qed.

(** C4. For every date-based operation ([get_readings],
    [get_general_forecast], [get_regional_forecast]) the last three segments
    of the path are the year, the month and the day; a month or day in 1..9
    is rendered as two characters, a zero and the digit ([3] as [03]), [12]
    and [31] as [12] and [31]; nothing else is checked: whatever the year,
    month and day, the request is sent, the year as [str] prints it, and a
    month or day below zero or above nine as [str] prints it. *)
Theorem date_segments_zero_padded (call : Call) (y m d : Z) :
  date_of call = Some (y, m, d) →
  (∃ prefix, Query.segments (meteocat_client.url_of call)
             = prefix ++ [Py.str_int y; Py.format_02d m; Py.format_02d d])
  ∧ (∀ json_loads net self,
       Eff.sent (meteocat_client.invoke json_loads call net self)
       = [mkRequest (meteocat_client.url_of call) (meteocat_client.headers self)])
  ∧ (∀ n, 1 ≤ n ≤ 9 →
          Py.format_02d n = String "0" (Py.str_int n)
          ∧ String.length (Py.format_02d n) = 2%nat)
  ∧ Py.format_02d 3 = "03" ∧ Py.format_02d 12 = "12" ∧ Py.format_02d 31 = "31"
  ∧ (∀ n, n < 0 ∨ 10 ≤ n → Py.format_02d n = Py.str_int n)
  ∧ Py.format_02d 0 = "00".
Proof.
  intros Hdate. split; [exact (segments_of_date_call call y m d Hdate)|]. split.
  { intros json_loads net self. rewrite invoke_request. apply request_effects. }
  split.
  { intros n Hn. split; [apply format_02d_small; lia|].
    apply Nat.eqb_eq.
    apply (range_check (λ z, Nat.eqb (String.length (Py.format_02d z)) 2) 1 9);
      [vm_compute; reflexivity|lia]. }
  repeat split; try (vm_compute; reflexivity).
  intros n [Hn|Hn]; [apply format_02d_negative|apply format_02d_large]; exact Hn.
Qed.

Lemma date_segments_zero_padded_witness :
  date_of (GetReadings 32 2024 3 7 (Some "UG")) = Some (2024, 3, 7)
  ∧ ∃ prefix, Query.segments (meteocat_client.url_of (GetReadings 32 2024 3 7 (Some "UG")))
              = prefix ++ [Py.str_int 2024; Py.format_02d 3; Py.format_02d 7].
Proof.
  split; [reflexivity|].
  exact (proj1 (date_segments_zero_padded (GetReadings 32 2024 3 7 (Some "UG")) 2024 3 7 eq_refl)).
Defined.


(** * Requests and their outcomes *)

Section RequestFacts.

Context (json_loads : string → option JSON).

Lemma request_outcome (url : string) (net : Network) (self : meteocat_client.MeteocatClient) :
  Eff.outcome (meteocat_client._request json_loads url net self)
  = match net (mkRequest url (meteocat_client.headers self)) with
    | Raise e => Raise e
    | Ok response =>
        if status_code response =? 200 then
          match json_loads (text response) with
          | Some value => Ok value
          | None => Raise JSONDecodeError
          end
        else Raise (Exception ("Meteocat API error (" +:+ Py.str_int (status_code response)
                               +:+ "): " +:+ text response))
    end.
Proof.
  unfold meteocat_client._request, mbind, Eff_bind, Eff.bind, Eff.get, Eff.http_get.
  cbn. destruct (net _) as [response|e]; cbn; [|reflexivity].
  destruct (status_code response =? 200); cbn; [|reflexivity].
  destruct (json_loads _); reflexivity.
Qed.

Lemma invoke_state (call : Call) (net : Network) (self : meteocat_client.MeteocatClient) :
  Eff.state (meteocat_client.invoke json_loads call net self) = self.
Proof. rewrite invoke_request. apply request_effects. Qed.

Lemma invoke_sent (call : Call) (net : Network) (self : meteocat_client.MeteocatClient) :
  Eff.sent (meteocat_client.invoke json_loads call net self)
  = [mkRequest (meteocat_client.url_of call) (meteocat_client.headers self)].
Proof. rewrite invoke_request. apply request_effects. Qed.

Lemma invoke_all_cons (call : Call) (calls : list Call) (net : Network)
    (self : meteocat_client.MeteocatClient) :
  Eff.state (meteocat_client.invoke_all json_loads (call :: calls) net self)
  = Eff.state (meteocat_client.invoke_all json_loads calls net
                 (Eff.state (meteocat_client.invoke json_loads call net self)))
  ∧ Eff.sent (meteocat_client.invoke_all json_loads (call :: calls) net self)
    = Eff.sent (meteocat_client.invoke json_loads call net self)
      ++ Eff.sent (meteocat_client.invoke_all json_loads calls net
                     (Eff.state (meteocat_client.invoke json_loads call net self))).
Proof.
  cbn [meteocat_client.invoke_all].
  destruct (meteocat_client.invoke json_loads call net self) as [[self1 sent1] r].
  cbn [Eff.state Eff.sent fst snd].
  destruct (meteocat_client.invoke_all json_loads calls net self1) as [[self2 sent2] rs].
  split; reflexivity.
Qed.

Lemma invoke_all_state (calls : list Call) (net : Network)
    (self : meteocat_client.MeteocatClient) :
  Eff.state (meteocat_client.invoke_all json_loads calls net self) = self.
Proof.
  induction calls as [|call calls IH]; [reflexivity|].
  rewrite (proj1 (invoke_all_cons call calls net self)), invoke_state. exact IH.
Qed.

Lemma invoke_all_sent (calls : list Call) (net : Network)
    (self : meteocat_client.MeteocatClient) :
  Eff.sent (meteocat_client.invoke_all json_loads calls net self)
  = map (λ call, mkRequest (meteocat_client.url_of call) (meteocat_client.headers self)) calls.
Proof.
  induction calls as [|call calls IH]; [reflexivity|].
  rewrite (proj2 (invoke_all_cons call calls net self)), invoke_state, invoke_sent, IH.
  reflexivity.
Qed.

End RequestFacts.

(** * The claims about requests, construction and dispatch *)

Lemma includes_intro (pre sub post : string) : Py.includes sub (pre +:+ sub +:+ post).
Proof. exists pre, post. reflexivity. Qed.

(** C2, as amended. For every upstream response: if the status is 200 the
    client decodes the body as JSON and returns the value; if the status is
    anything else, the other 2xx statuses included, the client raises an
    exception whose message is [Meteocat API error (<status>): <body>], which
    carries the status code and the raw body, and the body is not decoded
    (the outcome is the same whatever the decoder); for status 404 and body
    [not found] the message includes [404] and [not found]. *)
Theorem request_accepts_only_200 (json_loads : string → option JSON) (url : string)
    (net : Network) (self : meteocat_client.MeteocatClient) (response : Response) :
  net (mkRequest url (meteocat_client.headers self)) = Ok response →
  (status_code response = 200 →
     Eff.outcome (meteocat_client._request json_loads url net self)
     = match json_loads (text response) with
       | Some value => Ok value
       | None => Raise JSONDecodeError
       end)
  ∧ (status_code response ≠ 200 →
     let msg := "Meteocat API error (" +:+ Py.str_int (status_code response)
                +:+ "): " +:+ text response in
     (∀ decoder, Eff.outcome (meteocat_client._request decoder url net self)
                 = Raise (Exception msg))
     ∧ Py.includes (Py.str_int (status_code response)) msg
     ∧ Py.includes (text response) msg)
  ∧ (status_code response = 404 → text response = "not found" →
     Eff.outcome (meteocat_client._request json_loads url net self)
     = Raise (Exception "Meteocat API error (404): not found")
     ∧ Py.includes "404" "Meteocat API error (404): not found"
     ∧ Py.includes "not found" "Meteocat API error (404): not found").
Proof.
  intros Hnet. split; [|split].
  - intros Hs. rewrite request_outcome, Hnet, Hs. reflexivity.
  - intros Hs msg. split; [|split].
    + intros decoder. rewrite request_outcome, Hnet.
      destruct (Z.eqb_spec (status_code response) 200); [contradiction|reflexivity].
    + apply includes_intro.
    + exists ("Meteocat API error (" +:+ Py.str_int (status_code response) +:+ "): "), "".
      subst msg. rewrite app_nil_r, !app_assoc. reflexivity.
  - intros Hs Hbody. split; [|split].
    + rewrite request_outcome, Hnet, Hs, Hbody. reflexivity.
    + exists "Meteocat API error (", "): not found". reflexivity.
    + exists "Meteocat API error (404): ", "". reflexivity.
Qed.

Lemma request_accepts_only_200_witness :
  let self := meteocat_client.mkClient "key" ∅ in
  let net : Network := λ _, Ok (mkResponse 404 "not found") in
  net (mkRequest "u" (meteocat_client.headers self)) = Ok (mkResponse 404 "not found")
  ∧ Eff.outcome (meteocat_client._request SampleJson.loads "u" net self)
    = Raise (Exception "Meteocat API error (404): not found").
Proof.
  split; [reflexivity|].
  exact (proj1 (proj2 (proj2 (request_accepts_only_200 SampleJson.loads "u"
           (λ _, Ok (mkResponse 404 "not found")) (meteocat_client.mkClient "key" ∅)
           (mkResponse 404 "not found") eq_refl)) eq_refl eq_refl)).
Defined.

(** C2, as stated, fails: status 201 is a 2xx success status, the body [[]]
    is JSON, and the client raises instead of returning the decoded value. *)
Lemma request_rejects_status_201 :
  ¬ (∀ (json_loads : string → option JSON) url net self response value,
       net (mkRequest url (meteocat_client.headers self)) = Ok response →
       success_status (status_code response) = true →
       json_loads (text response) = Some value →
       Eff.outcome (meteocat_client._request json_loads url net self) = Ok value).
Proof.
  intros H.
  specialize (H SampleJson.loads "u" (λ _, Ok (mkResponse 201 "[]"))
                (meteocat_client.mkClient "key" ∅) (mkResponse 201 "[]") (JArray [])
                eq_refl eq_refl eq_refl).
  vm_compute in H. discriminate H.
Qed.

(** C5. Constructing the client with no credential, or with the empty
    string, raises the configuration error and sends nothing; constructing it
    with a non-empty credential succeeds, sends nothing, and builds a header
    set with exactly two entries, the key under [x-api-key] and
    [Accept: application/json]; every request of every later call carries
    this header set. *)
Theorem construction_requires_credential :
  (∀ net, meteocat_client.__init__ None net ()
          = ((), [], Raise (ValueError "METEOCAT_API_KEY is required")))
  ∧ (∀ net, meteocat_client.__init__ (Some "") net ()
            = ((), [], Raise (ValueError "METEOCAT_API_KEY is required")))
  ∧ (∀ a r net,
       let key := String a r in
       ∃ self,
         meteocat_client.__init__ (Some key) net () = ((), [], Ok self)
         ∧ meteocat_client.api_key self = key
         ∧ meteocat_client.headers self !! "x-api-key" = Some key
         ∧ meteocat_client.headers self !! "Accept" = Some "application/json"
         ∧ dom (meteocat_client.headers self) = {[ "x-api-key"; "Accept" ]}
         ∧ ∀ json_loads calls net',
             Forall (λ rq, req_headers rq = meteocat_client.headers self)
                    (Eff.sent (meteocat_client.invoke_all json_loads calls net' self))
             ∧ length (Eff.sent (meteocat_client.invoke_all json_loads calls net' self))
               = length calls).
Proof.
  split; [reflexivity|]. split; [reflexivity|].
  intros a r net key. eexists. split; [reflexivity|].
  cbn [meteocat_client.api_key meteocat_client.headers].
  split; [reflexivity|]. split; [apply lookup_insert_eq|]. split.
  { rewrite lookup_insert_ne by discriminate. apply lookup_singleton_eq. }
  split.
  { rewrite dom_insert_L, dom_singleton_L. reflexivity. }
  intros json_loads calls net'. rewrite invoke_all_sent. split.
  - apply Forall_map, Forall_forall. intros call _. reflexivity.
  - apply length_map.
Qed.

(** C6. When the credential is missing at startup (absent or empty) the
    client is never constructed, and then every one of the fourteen tools
    returns the same fixed configuration message, whatever its arguments,
    without running any client method and without sending any request. *)
Theorem tools_report_missing_configuration (api_key : option string) :
  Py.truthy api_key = false →
  (∀ net, server.client api_key net () = ((), [], Ok None))
  ∧ (∀ json_loads py_str call net,
       server.call_tool json_loads py_str call net None
       = (None, [], Ok "Error: Server not configured (missing API key)"))
  ∧ (∀ py_str method net,
       server.tool py_str method net None = (None, [], Ok server.not_configured)).
Proof.
  intros Hkey. split; [|split].
  - intros net. unfold server.client. rewrite Hkey. reflexivity.
  - intros json_loads py_str call net. destruct call; reflexivity.
  - reflexivity.
Qed.

Lemma tools_report_missing_configuration_witness :
  Py.truthy (Some "") = false
  ∧ ∀ net, server.client (Some "") net () = ((), [], Ok None).
Proof.
  split; [reflexivity|].
  exact (proj1 (tools_report_missing_configuration (Some "") eq_refl)).
Defined.

(** C9. Every client operation leaves the client as it was: after one call,
    or any sequence of calls, whether they succeed or fail, the client still
    holds the credential and the header set it was constructed with; and the
    URL a call requests is [url_of] of its arguments, the same for every
    client, decoder and upstream. *)
Theorem client_state_unchanged :
  (∀ json_loads call net self,
     Eff.state (meteocat_client.invoke json_loads call net self) = self)
  ∧ (∀ json_loads calls net self,
       Eff.state (meteocat_client.invoke_all json_loads calls net self) = self)
  ∧ (∀ a r net,
       let key := String a r in
       let constructed :=
         meteocat_client.mkClient key {[ "x-api-key" := key; "Accept" := "application/json" ]} in
       Eff.outcome (meteocat_client.__init__ (Some key) net ()) = Ok constructed
       ∧ ∀ json_loads calls net',
           let after := Eff.state (meteocat_client.invoke_all json_loads calls net' constructed) in
           meteocat_client.api_key after = key
           ∧ meteocat_client.headers after
             = {[ "x-api-key" := key; "Accept" := "application/json" ]})
  ∧ (∀ loads1 loads2 call net1 net2 self1 self2,
       map req_url (Eff.sent (meteocat_client.invoke loads1 call net1 self1))
       = [meteocat_client.url_of call]
       ∧ map req_url (Eff.sent (meteocat_client.invoke loads1 call net1 self1))
         = map req_url (Eff.sent (meteocat_client.invoke loads2 call net2 self2))).
Proof.
  split; [intros; apply invoke_state|]. split; [intros; apply invoke_all_state|]. split.
  - intros a r net key constructed. split; [reflexivity|].
    intros json_loads calls net' after. subst after. rewrite invoke_all_state.
    split; reflexivity.
  - intros. rewrite !invoke_sent. split; reflexivity.
Qed.

Lemma call_tool_invoke (json_loads : string → option JSON) (py_str : JSON → string)
    (call : Call) :
  server.call_tool json_loads py_str call
  = server.tool py_str (meteocat_client.invoke json_loads call).
Proof. destruct call; reflexivity. Qed.

Lemma tool_outcome (py_str : JSON → string)
    (method : Eff meteocat_client.MeteocatClient JSON) (net : Network)
    (self : meteocat_client.MeteocatClient) :
  Eff.outcome (server.tool py_str method net (Some self))
  = match Eff.outcome (method net self) with
    | Ok result => Ok (py_str result)
    | Raise e => Raise e
    end.
Proof. unfold server.tool. destruct (method net self) as [[self' sent] r]. reflexivity. Qed.

Lemma invoke_outcome (json_loads : string → option JSON) (call : Call) (net : Network)
    (self : meteocat_client.MeteocatClient) (response : Response) :
  net (mkRequest (meteocat_client.url_of call) (meteocat_client.headers self)) = Ok response →
  Eff.outcome (meteocat_client.invoke json_loads call net self)
  = if status_code response =? 200 then
      match json_loads (text response) with
      | Some value => Ok value
      | None => Raise JSONDecodeError
      end
    else Raise (Exception ("Meteocat API error (" +:+ Py.str_int (status_code response)
                           +:+ "): " +:+ text response)).
Proof. intros Hnet. rewrite invoke_request, request_outcome, Hnet. reflexivity. Qed.

(** C7, as amended. For every upstream response with status 200 and a body
    that is JSON, every client operation returns the decoded value as it is,
    of whatever shape, and the tool returns its text; in particular a body
    that is a serialized array comes back as that array, the same elements in
    the same order, whenever the decoder reads back what the serializer
    wrote. *)
Theorem status_200_body_returned_verbatim (json_loads : string → option JSON)
    (call : Call) (net : Network) (self : meteocat_client.MeteocatClient)
    (response : Response) :
  net (mkRequest (meteocat_client.url_of call) (meteocat_client.headers self)) = Ok response →
  status_code response = 200 →
  (∀ value, json_loads (text response) = Some value →
     Eff.outcome (meteocat_client.invoke json_loads call net self) = Ok value
     ∧ ∀ py_str, Eff.outcome (server.call_tool json_loads py_str call net (Some self))
                 = Ok (py_str value))
  ∧ (∀ (json_dumps : JSON → string) items,
       text response = json_dumps (JArray items) →
       json_loads (json_dumps (JArray items)) = Some (JArray items) →
       Eff.outcome (meteocat_client.invoke json_loads call net self) = Ok (JArray items)).
Proof.
  intros Hnet Hs.
  assert (Hval : ∀ value, json_loads (text response) = Some value →
            Eff.outcome (meteocat_client.invoke json_loads call net self) = Ok value).
  { intros value Hv. rewrite (invoke_outcome _ _ _ _ _ Hnet), Hs, Hv. reflexivity. }
  split.
  - intros value Hv. split; [exact (Hval value Hv)|].
    intros py_str. rewrite call_tool_invoke, tool_outcome, (Hval value Hv). reflexivity.
  - intros json_dumps items Hbody Hround. apply Hval. rewrite Hbody. exact Hround.
Qed.

Lemma status_200_body_returned_verbatim_witness :
  let self := meteocat_client.mkClient "key" ∅ in
  let items := [JInt 1; JObject [("codi", JString "UG")]; JNull] in
  let response := mkResponse 200 (SampleJson.dumps (JArray items)) in
  let net : Network := λ _, Ok response in
  net (mkRequest (meteocat_client.url_of GetMunicipalities) (meteocat_client.headers self))
  = Ok response
  ∧ status_code response = 200
  ∧ SampleJson.loads (SampleJson.dumps (JArray items)) = Some (JArray items)
  ∧ Eff.outcome (meteocat_client.invoke SampleJson.loads GetMunicipalities net self)
    = Ok (JArray items).
Proof.
  split; [reflexivity|]. split; [reflexivity|]. split; [vm_compute; reflexivity|].
  refine (proj2 (status_200_body_returned_verbatim SampleJson.loads GetMunicipalities
            (λ _, Ok (mkResponse 200 (SampleJson.dumps
               (JArray [JInt 1; JObject [("codi", JString "UG")]; JNull]))))
            (meteocat_client.mkClient "key" ∅) _ eq_refl eq_refl)
          SampleJson.dumps _ eq_refl _).
  vm_compute. reflexivity.
Defined.

(** C7, as stated, fails: with the success status 201 and the JSON array
    body [[1,2]] the client raises instead of returning the array. *)
Lemma status_201_array_not_returned :
  ¬ (∀ (json_loads : string → option JSON) call net self response value,
       net (mkRequest (meteocat_client.url_of call) (meteocat_client.headers self))
       = Ok response →
       success_status (status_code response) = true →
       json_loads (text response) = Some value →
       Eff.outcome (meteocat_client.invoke json_loads call net self) = Ok value).
Proof.
  intros H.
  specialize (H SampleJson.loads GetMunicipalities (λ _, Ok (mkResponse 201 "[1,2]"))
                (meteocat_client.mkClient "key" ∅) (mkResponse 201 "[1,2]")
                (JArray [JInt 1; JInt 2]) eq_refl eq_refl).
  assert (Hbody : SampleJson.loads "[1,2]" = Some (JArray [JInt 1; JInt 2]))
    by (vm_compute; reflexivity).
  specialize (H Hbody). vm_compute in H. discriminate H.
Qed.

(** C8, as amended. For every upstream response with status 200 whose body
    is not JSON, every client operation raises the decoder's error, and the
    tool lets it through unchanged; and whatever the status, a body that is
    not JSON never yields a value, neither from the client nor from the
    tool. *)
Theorem status_200_invalid_body_raises (json_loads : string → option JSON)
    (call : Call) (net : Network) (self : meteocat_client.MeteocatClient)
    (response : Response) :
  net (mkRequest (meteocat_client.url_of call) (meteocat_client.headers self)) = Ok response →
  json_loads (text response) = None →
  (status_code response = 200 →
     Eff.outcome (meteocat_client.invoke json_loads call net self) = Raise JSONDecodeError
     ∧ ∀ py_str, Eff.outcome (server.call_tool json_loads py_str call net (Some self))
                 = Raise JSONDecodeError)
  ∧ (∀ value, Eff.outcome (meteocat_client.invoke json_loads call net self) ≠ Ok value)
  ∧ (∀ py_str shown,
       Eff.outcome (server.call_tool json_loads py_str call net (Some self)) ≠ Ok shown).
Proof.
  intros Hnet Hbody. split; [|split].
  - intros Hs.
    assert (Hraise : Eff.outcome (meteocat_client.invoke json_loads call net self)
                     = Raise JSONDecodeError).
    { rewrite (invoke_outcome _ _ _ _ _ Hnet), Hs, Hbody. reflexivity. }
    split; [exact Hraise|].
    intros py_str. rewrite call_tool_invoke, tool_outcome, Hraise. reflexivity.
  - intros value. rewrite (invoke_outcome _ _ _ _ _ Hnet), Hbody.
    destruct (status_code response =? 200); discriminate.
  - intros py_str shown. rewrite call_tool_invoke, tool_outcome.
    rewrite (invoke_outcome _ _ _ _ _ Hnet), Hbody.
    destruct (status_code response =? 200); discriminate.
Qed.

Lemma status_200_invalid_body_raises_witness :
  let self := meteocat_client.mkClient "key" ∅ in
  let response := mkResponse 200 "<html>" in
  let net : Network := λ _, Ok response in
  net (mkRequest (meteocat_client.url_of GetRegions) (meteocat_client.headers self))
  = Ok response
  ∧ SampleJson.loads (text response) = None
  ∧ Eff.outcome (meteocat_client.invoke SampleJson.loads GetRegions net self)
    = Raise JSONDecodeError.
Proof.
  split; [reflexivity|]. split; [vm_compute; reflexivity|].
  refine (proj1 (proj1 (status_200_invalid_body_raises SampleJson.loads GetRegions
            (λ _, Ok (mkResponse 200 "<html>")) (meteocat_client.mkClient "key" ∅)
            (mkResponse 200 "<html>") eq_refl _) eq_refl)).
  vm_compute. reflexivity.
Defined.

(** C8, as stated, fails: with the success status 204 and an empty body,
    which is not JSON, the client raises the status exception and not the
    decoder's error. *)
Lemma status_204_empty_body_not_decode_error :
  ¬ (∀ (json_loads : string → option JSON) call net self response,
       net (mkRequest (meteocat_client.url_of call) (meteocat_client.headers self))
       = Ok response →
       success_status (status_code response) = true →
       json_loads (text response) = None →
       Eff.outcome (meteocat_client.invoke json_loads call net self)
       = Raise JSONDecodeError).
Proof.
  intros H.
  specialize (H SampleJson.loads GetRegions (λ _, Ok (mkResponse 204 ""))
                (meteocat_client.mkClient "key" ∅) (mkResponse 204 "") eq_refl eq_refl).
  assert (Hbody : SampleJson.loads "" = None) by (vm_compute; reflexivity).
  specialize (H Hbody). vm_compute in H. discriminate H.
Qed.


(** * Further properties of the client and the server *)

Section PathFacts.

Lemma url_as_join (call : Call) :
  meteocat_client.url_of (strip_optional call)
  = Py.join "/" (base_segments (api_of call) ++ tail_segments call).
Proof. destruct call; reflexivity. Qed.

Lemma plain_call_path (call : Call) :
  plain_call call = true →
  forallb (λ s, negb (Query.has_char "?" s)) (path_args call) = true
  ∧ Forall (λ s, Query.has_char "/" s = false) (path_args call).
Proof.
  unfold plain_call. intros H. apply andb_true_iff in H as [H _].
  rewrite forallb_forall in H. split.
  - apply forallb_forall. intros s Hs. specialize (H s Hs).
    apply andb_true_iff in H. tauto.
  - apply Forall_forall. intros s Hs%list_elem_of_In. specialize (H s Hs).
    apply andb_true_iff in H as [_ H]. apply negb_true_iff in H. exact H.
Qed.

Lemma plain_call_well_formed (call : Call) : plain_call call = true → well_formed call = true.
Proof.
  intros H. unfold well_formed. apply andb_true_iff. split.
  - apply (plain_call_path call H).
  - unfold plain_call in H. apply andb_true_iff in H. tauto.
Qed.

Lemma tail_segments_plain (call : Call) :
  Forall (λ s, Query.has_char "/" s = false) (path_args call) →
  Forall (λ s, Query.has_char "/" s = false) (tail_segments call).
Proof.
  intros Hp.
  destruct call; cbn [tail_segments path_args] in *;
    repeat match goal with
           | H : Forall _ (_ :: _) |- _ => apply Forall_cons_1 in H as [? ?]
           end;
    repeat constructor;
    first [assumption | apply str_int_chars; reflexivity
          | apply format_02d_chars; reflexivity | reflexivity].
Qed.

(** The path of the URL of a call with plain arguments, cut at [/]. *)
Lemma segments_of_call (call : Call) :
  plain_call call = true →
  Query.segments (meteocat_client.url_of call)
  = base_segments (api_of call) ++ tail_segments call.
Proof.
  intros Hplain. destruct (plain_call_path call Hplain) as [Hq Hs].
  unfold Query.segments.
  rewrite url_shape, path_suffix by (apply path_has_no_query, Hq).
  rewrite url_as_join. apply split_join.
  - discriminate.
  - apply Forall_app. split; [|apply tail_segments_plain, Hs].
    destruct call; repeat constructor.
Qed.

End PathFacts.

Section Injectivity.

Lemma str_int_inj (a b : Z) : Py.str_int a = Py.str_int b → a = b.
Proof. unfold Py.str_int. apply (inj pretty). Qed.

Lemma pretty_N_go_leading (x : N) (s : string) :
  (0 < x)%N → ∃ c r, pretty_N_go x s = String c r ∧ c ≠ "0"%char.
Proof.
  revert s. induction (N.lt_wf_0 x) as [x _ IH]; intros s Hx.
  rewrite pretty_N_go_step by exact Hx.
  destruct (decide (x < 10)%N) as [Hsmall|Hlarge].
  - rewrite N.div_small, N.mod_small, pretty_N_go_0 by exact Hsmall.
    exists (pretty_N_char x), s. split; [reflexivity|].
    assert (x = 1 ∨ x = 2 ∨ x = 3 ∨ x = 4 ∨ x = 5 ∨ x = 6 ∨ x = 7 ∨ x = 8 ∨ x = 9)%N
      as Hcases by lia.
    destruct Hcases as [->|[->|[->|[->|[->|[->|[->|[->| ->]]]]]]]]; discriminate.
  - apply IH; [apply N.div_lt; lia|apply N.div_str_pos; lia].
Qed.

Lemma str_int_pos_leading (p : positive) :
  ∃ c r, Py.str_int (Zpos p) = String c r ∧ c ≠ "0"%char ∧ c ≠ "-"%char.
Proof.
  destruct (pretty_N_go_leading (Npos p) "" ltac:(lia)) as (c & r & Heq & Hc).
  exists c, r. rewrite str_int_pos. split; [exact Heq|]. split; [exact Hc|].
  intros ->. apply (pretty_N_go_ne_dash (Npos p) "" r); [discriminate|exact Heq].
Qed.

(** How [f"{n:02d}"] relates to [str(n)]. *)
Lemma format_02d_cases (n : Z) :
  (0 ≤ n ≤ 9 ∧ Py.format_02d n = String "0" (Py.str_int n))
  ∨ ((n < 0 ∨ 10 ≤ n) ∧ Py.format_02d n = Py.str_int n).
Proof.
  destruct (decide (0 ≤ n ≤ 9)) as [H|H].
  - left. split; [exact H|apply format_02d_small, H].
  - right. assert (n < 0 ∨ 10 ≤ n) as Hn by lia. split; [exact Hn|].
    destruct Hn; [apply format_02d_negative|apply format_02d_large]; assumption.
Qed.

Lemma str_int_not_zero_led (n : Z) (r : string) :
  n < 0 ∨ 10 ≤ n → Py.str_int n ≠ String "0" r.
Proof.
  intros Hn Heq. destruct n as [|p|p]; [lia| |].
  - destruct (str_int_pos_leading p) as (c & r' & Hp & Hc & _). congruence.
  - rewrite str_int_neg in Heq. discriminate Heq.
Qed.

Lemma format_02d_inj (a b : Z) : Py.format_02d a = Py.format_02d b → a = b.
Proof.
  destruct (format_02d_cases a) as [[Ha ->]|[Ha ->]],
           (format_02d_cases b) as [[Hb ->]|[Hb ->]]; intros H.
  - injection H as H. apply str_int_inj, H.
  - symmetry in H. destruct (str_int_not_zero_led _ _ Hb H).
  - destruct (str_int_not_zero_led _ _ Ha H).
  - apply str_int_inj, H.
Qed.

Lemma omit_empty_present (k : string) (s : option string) :
  present [(k, s)] = match omit_empty s with
                     | Some v => [(k, v)]
                     | None => []
                     end.
Proof. destruct s as [[|a r]|]; reflexivity. Qed.

Lemma url_of_normalize (call : Call) :
  meteocat_client.url_of (normalize call) = meteocat_client.url_of call.
Proof.
  destruct call as [ | | |state date|c| |c state|v station|v y m d station|c|c|y m d|y m d|c];
    try reflexivity.
  - destruct state as [[|a r]|], date as [[|a' r']|]; reflexivity.
  - destruct state as [[|a r]|]; reflexivity.
  - destruct station as [[|a r]|]; reflexivity.
  - destruct station as [[|a r]|]; reflexivity.
Qed.

Lemma present_one_inj (k : string) (s t : option string) :
  present [(k, s)] = present [(k, t)] → omit_empty s = omit_empty t.
Proof.
  rewrite !omit_empty_present.
  destruct (omit_empty s), (omit_empty t); intros H; try discriminate; congruence.
Qed.

Lemma present_two_inj (k1 k2 : string) (s1 s2 t1 t2 : option string) :
  k1 ≠ k2 →
  present [(k1, s1); (k2, s2)] = present [(k1, t1); (k2, t2)] →
  omit_empty s1 = omit_empty t1 ∧ omit_empty s2 = omit_empty t2.
Proof.
  intros Hk.
  destruct s1 as [[|a1 r1]|], s2 as [[|a2 r2]|], t1 as [[|b1 q1]|], t2 as [[|b2 q2]|];
    cbn; intros H; try discriminate; split; congruence.
Qed.

End Injectivity.

Section TargetFacts.

Lemma call_of_segments (c1 c2 : Call) :
  base_segments (api_of c1) ++ tail_segments c1
  = base_segments (api_of c2) ++ tail_segments c2 →
  present (optional_args c1) = present (optional_args c2) →
  normalize c1 = normalize c2.
Proof.
  intros Hseg Hpar.
  destruct c1, c2; cbn [base_segments api_of tail_segments app] in Hseg;
    try discriminate Hseg;
    cbn [normalize optional_args] in *;
    try reflexivity;
    try (injection Hseg; clear Hseg; intros);
    repeat match goal with
           | H : Py.str_int _ = Py.str_int _ |- _ => apply str_int_inj in H
           | H : Py.format_02d _ = Py.format_02d _ |- _ => apply format_02d_inj in H
           end;
    subst;
    try reflexivity.
  - apply present_two_inj in Hpar as [-> ->]; [reflexivity|discriminate].
  - apply present_one_inj in Hpar as ->. reflexivity.
  - apply present_one_inj in Hpar as ->. reflexivity.
  - apply present_one_inj in Hpar as ->. reflexivity.
Qed.

Lemma token_call_plain (call : Call) : token_call call = true → plain_call call = true.
Proof.
  intros H. destruct (token_call_args call H) as [Hp _].
  unfold plain_call. apply andb_true_iff. split.
  - apply forallb_forall. intros s Hs%list_elem_of_In. rewrite Forall_forall in Hp.
    rewrite (token_has_char "?" s eq_refl (Hp s Hs)).
    rewrite (token_has_char "/" s eq_refl (Hp s Hs)). reflexivity.
  - pose proof (token_call_well_formed call H) as Hw. unfold well_formed in Hw.
    apply andb_true_iff in Hw. tauto.
Qed.

Lemma dot_segment_has_dot (s : string) :
  Query.has_char "." s = false → Uri.dot_segment s = false.
Proof.
  intros H. unfold Uri.dot_segment. apply orb_false_iff.
  split; apply String.eqb_neq; intros ->; discriminate H.
Qed.

Lemma remove_dots_id (out segs : list string) :
  Forall (λ s, Uri.dot_segment s = false) segs →
  Uri.remove_dots out segs = rev out ++ segs.
Proof.
  intros H. revert out. induction H as [|s segs Hs _ IH]; intros out.
  - cbn. rewrite List.app_nil_r. reflexivity.
  - unfold Uri.dot_segment in Hs. apply orb_false_iff in Hs as [H1 H2].
    cbn [Uri.remove_dots]. rewrite H1, H2, IH. cbn [rev].
    rewrite <- List.app_assoc. reflexivity.
Qed.

Lemma dotless_call_args (call : Call) :
  dotless_call call = true →
  token_call call = true ∧ Forall (λ s, Uri.dot_segment s = false) (path_args call).
Proof.
  unfold dotless_call. intros H. apply andb_true_iff in H as [Ht Hd].
  split; [exact Ht|]. rewrite forallb_forall in Hd.
  apply Forall_forall. intros s Hs%list_elem_of_In.
  apply negb_true_iff, Hd, Hs.
Qed.

Lemma tail_segments_dotless (call : Call) :
  Forall (λ s, Uri.dot_segment s = false) (path_args call) →
  Forall (λ s, Uri.dot_segment s = false) (tail_segments call).
Proof.
  intros Hp.
  destruct call; cbn [tail_segments path_args] in *;
    repeat match goal with
           | H : Forall _ (_ :: _) |- _ => apply Forall_cons_1 in H as [? ?]
           end;
    repeat constructor;
    first [assumption
          | apply dot_segment_has_dot, str_int_chars; reflexivity
          | apply dot_segment_has_dot, format_02d_chars; reflexivity
          | reflexivity].
Qed.

Lemma uri_query_of_call (call : Call) :
  token_call call = true →
  Uri.query (meteocat_client.url_of call) = query_text (present (optional_args call)).
Proof.
  intros H. unfold Uri.query, Uri.without_fragment.
  rewrite (cut_absent _ _ (url_has_no_fragment call H)), url_shape.
  pose proof (path_has_no_query call
                (proj1 (plain_call_path call (token_call_plain call H)))) as Hq.
  destruct (present (optional_args call)) as [|kv l].
  - cbn [query_suffix query_text]. rewrite app_nil_r, (cut_absent _ _ Hq). reflexivity.
  - unfold query_suffix, query_text.
    change ("?" +:+ Py.join "&" (map (λ kv0, kv0.1 +:+ "=" +:+ kv0.2) (kv :: l)))
      with (String "?" (Py.join "&" (map (λ kv0, kv0.1 +:+ "=" +:+ kv0.2) (kv :: l)))).
    rewrite (cut_first _ _ _ Hq). reflexivity.
Qed.

(** What a call with token arguments and no dot segment asks for. *)
Lemma target_of_call (call : Call) :
  dotless_call call = true →
  Uri.target (meteocat_client.url_of call)
  = Some ("https:", "api.meteo.cat", api_of call :: "v1" :: tail_segments call,
          query_text (present (optional_args call))).
Proof.
  intros H. destruct (dotless_call_args call H) as [Ht Hd].
  unfold Uri.target, Uri.parts.
  rewrite (proj2 (uri_without_fragment _ (url_has_no_fragment call Ht))).
  change (Query.split "/" (Query.path (meteocat_client.url_of call)))
    with (Query.segments (meteocat_client.url_of call)).
  rewrite (segments_of_call call (token_call_plain call Ht)).
  cbn [base_segments app]. rewrite (uri_query_of_call call Ht).
  rewrite remove_dots_id.
  - reflexivity.
  - constructor; [destruct call; reflexivity|].
    constructor; [reflexivity|]. apply tail_segments_dotless, Hd.
Qed.

End TargetFacts.

(** X1. Two calls with token arguments (unreserved characters only), none
    of them a dot segment in the path, ask for the same thing, by the text of
    the URL and by what a request for it asks for (scheme, host, path after
    removal of dot segments, query), exactly when they are the same method
    with the same arguments, an empty optional argument counting as an absent
    one. *)
Theorem url_determines_call (c1 c2 : Call) :
  dotless_call c1 = true → dotless_call c2 = true →
  (meteocat_client.url_of c1 = meteocat_client.url_of c2 ↔ normalize c1 = normalize c2)
  ∧ (Uri.target (meteocat_client.url_of c1) = Uri.target (meteocat_client.url_of c2)
     ↔ normalize c1 = normalize c2).
Proof.
  intros H1 H2.
  assert (Hback : normalize c1 = normalize c2 →
                  meteocat_client.url_of c1 = meteocat_client.url_of c2).
  { intros Hn. rewrite <- (url_of_normalize c1), <- (url_of_normalize c2), Hn. reflexivity. }
  assert (Htarget : Uri.target (meteocat_client.url_of c1)
                    = Uri.target (meteocat_client.url_of c2) →
                    normalize c1 = normalize c2).
  { intros Ht.
    destruct (dotless_call_args c1 H1) as [Ht1 _], (dotless_call_args c2 H2) as [Ht2 _].
    assert (Hq : Uri.query (meteocat_client.url_of c1) = Uri.query (meteocat_client.url_of c2)).
    { rewrite (uri_query_of_call c1 Ht1), (uri_query_of_call c2 Ht2).
      rewrite (target_of_call c1 H1), (target_of_call c2 H2) in Ht. congruence. }
    rewrite (target_of_call c1 H1), (target_of_call c2 H2) in Ht.
    injection Ht as Hapi Htail _.
    apply call_of_segments.
    - cbn [base_segments app]. rewrite Hapi, Htail. reflexivity.
    - rewrite <- (uri_params_of_call c1 Ht1), <- (uri_params_of_call c2 Ht2).
      unfold Uri.params. rewrite Hq. reflexivity. }
  split; split.
  - intros Hurl. apply Htarget. rewrite Hurl. reflexivity.
  - exact Hback.
  - exact Htarget.
  - intros Hn. rewrite (Hback Hn). reflexivity.
Qed.

Lemma url_determines_call_witness :
  dotless_call (GetStation "UG") = true ∧ dotless_call (GetStation "CC") = true
  ∧ Uri.target (meteocat_client.url_of (GetStation "UG"))
    ≠ Uri.target (meteocat_client.url_of (GetStation "CC")).
Proof.
  split; [reflexivity|]. split; [reflexivity|].
  intros H.
  apply (proj1 (proj2 (url_determines_call (GetStation "UG") (GetStation "CC")
                         eq_refl eq_refl))) in H.
  discriminate H.
Defined.


Section HostFacts.

Lemma cut_prefix (c : ascii) (p r : string) :
  Query.has_char c p = false →
  Query.cut c (p +:+ r)
  = match Query.cut c r with
    | Some (before, after) => Some (p +:+ before, after)
    | None => None
    end.
Proof.
  induction p as [|a p IH].
  - intros _. rewrite app_nil_l. destruct (Query.cut c r) as [[before after]|]; reflexivity.
  - rewrite has_char_cons. intros H. apply orb_false_iff in H as [Ha Hp].
    rewrite app_cons. cbn [Query.cut]. rewrite Ha, (IH Hp).
    destruct (Query.cut c r) as [[before after]|]; reflexivity.
Qed.

Lemma path_prefix (p r : string) :
  Query.has_char "?" p = false → Query.path (p +:+ r) = p +:+ Query.path r.
Proof.
  intros Hp. unfold Query.path. rewrite (cut_prefix _ _ _ Hp).
  destruct (Query.cut "?" r) as [[before after]|]; reflexivity.
Qed.

Lemma join_app (sep : string) (l1 l2 : list string) :
  l1 ≠ [] → l2 ≠ [] →
  Py.join sep (l1 ++ l2) = Py.join sep l1 +:+ sep +:+ Py.join sep l2.
Proof.
  intros H1 H2. induction l1 as [|x l1 IH]; [congruence|].
  destruct l1 as [|x' l1].
  - destruct l2 as [|y l2]; [congruence|]. reflexivity.
  - change (Py.join sep ((x :: x' :: l1) ++ l2))
      with (x +:+ sep +:+ Py.join sep ((x' :: l1) ++ l2)).
    rewrite IH by discriminate.
    change (Py.join sep (x :: x' :: l1)) with (x +:+ sep +:+ Py.join sep (x' :: l1)).
    rewrite !app_assoc. reflexivity.
Qed.

Lemma tail_segments_nonempty (call : Call) : tail_segments call ≠ [].
Proof. destruct call; discriminate. Qed.

End HostFacts.

Section TraversalFacts.

Lemma without_fragment_prefix (p r : string) :
  Query.has_char "#" p = false →
  Uri.without_fragment (p +:+ r) = p +:+ Uri.without_fragment r.
Proof.
  intros Hp. unfold Uri.without_fragment. rewrite (cut_prefix _ _ _ Hp).
  destruct (Query.cut "#" r) as [[before after]|]; reflexivity.
Qed.

Lemma hierarchy_prefix (p r : string) :
  Query.has_char "#" p = false → Query.has_char "?" p = false →
  Uri.hierarchy (p +:+ r) = p +:+ Uri.hierarchy r
  ∧ Uri.query (p +:+ r) = Uri.query r.
Proof.
  intros Hf Hq. unfold Uri.hierarchy, Uri.query.
  rewrite (without_fragment_prefix _ _ Hf), (cut_prefix _ _ _ Hq).
  destruct (Query.cut "?" (Uri.without_fragment r)) as [[before after]|]; split; reflexivity.
Qed.

(** The parts of a URL that starts with [prefix], a text ending in [/]. *)
Lemma parts_after_prefix (prefix r : string) :
  Query.has_char "#" prefix = false → Query.has_char "?" prefix = false →
  Query.split "/" (Uri.hierarchy ((prefix +:+ "/") +:+ r))
  = Query.split "/" prefix ++ Query.split "/" (Uri.hierarchy r)
  ∧ Uri.query ((prefix +:+ "/") +:+ r) = Uri.query r.
Proof.
  intros Hf Hq.
  assert (Hf' : Query.has_char "#" (prefix +:+ "/") = false)
    by (rewrite has_char_app, Hf; reflexivity).
  assert (Hq' : Query.has_char "?" (prefix +:+ "/") = false)
    by (rewrite has_char_app, Hq; reflexivity).
  destruct (hierarchy_prefix (prefix +:+ "/") r Hf' Hq') as [-> ->].
  split; [|reflexivity]. rewrite app_assoc.
  change ("/" +:+ Uri.hierarchy r) with (String "/" (Uri.hierarchy r)).
  apply split_app.
Qed.

Lemma url_after_base (call : Call) :
  meteocat_client.url_of call
  = (Py.join "/" (base_segments (api_of call)) +:+ "/")
    +:+ (Py.join "/" (tail_segments call) +:+ query_suffix (present (optional_args call))).
Proof.
  rewrite url_shape, url_as_join.
  rewrite join_app by (discriminate || apply tail_segments_nonempty).
  rewrite !app_assoc. reflexivity.
Qed.

End TraversalFacts.

(** X3. Whatever the arguments of a call, separators, fragments and dot
    segments included, the request it makes is for the scheme [https] and
    the host [api.meteo.cat]; with token arguments, none of them a dot
    segment, the path asked for also starts with the method's own API and
    [v1]. The API is not kept in general: a municipality code that starts
    with [../../../] makes [get_uvi_forecast] ask for any path of the host,
    that of [get_all_variables] for instance. *)
Theorem requests_stay_on_host :
  (∀ call, ∃ path q,
     Uri.target (meteocat_client.url_of call) = Some ("https:", "api.meteo.cat", path, q))
  ∧ (∀ call, dotless_call call = true →
       Uri.target (meteocat_client.url_of call)
       = Some ("https:", "api.meteo.cat", api_of call :: "v1" :: tail_segments call,
               query_text (present (optional_args call))))
  ∧ (∀ r, Uri.target (Url.get_uvi_forecast ("../../../" +:+ r))
          = Uri.target ("https://api.meteo.cat/" +:+ r))
  ∧ Uri.target (Url.get_uvi_forecast "../../../xema/v1/variables/metadades")
    = Uri.target Url.get_all_variables.
Proof.
  assert (Htraversal : ∀ r, Uri.target (Url.get_uvi_forecast ("../../../" +:+ r))
                            = Uri.target ("https://api.meteo.cat/" +:+ r)).
  { intros r. unfold Uri.target, Uri.parts.
    change (Url.get_uvi_forecast ("../../../" +:+ r))
      with (("https://api.meteo.cat/pronostic/v1/uvi/../../.." +:+ "/") +:+ r).
    change ("https://api.meteo.cat/" +:+ r) with (("https://api.meteo.cat" +:+ "/") +:+ r).
    destruct (parts_after_prefix "https://api.meteo.cat/pronostic/v1/uvi/../../.." r
                eq_refl eq_refl) as [-> ->].
    destruct (parts_after_prefix "https://api.meteo.cat" r eq_refl eq_refl) as [-> ->].
    pose proof (split_nonempty "/" (Uri.hierarchy r)) as Hne.
    destruct (Query.split "/" (Uri.hierarchy r)) as [|x l]; [congruence|].
    reflexivity. }
  split; [|split; [|split]].
  - intros call. unfold Uri.target, Uri.parts. rewrite url_after_base.
    destruct (parts_after_prefix (Py.join "/" (base_segments (api_of call)))
                (Py.join "/" (tail_segments call)
                 +:+ query_suffix (present (optional_args call))))
      as [-> ->]; try (destruct call; reflexivity).
    replace (Query.split "/" (Py.join "/" (base_segments (api_of call))))
      with (base_segments (api_of call)) by (destruct call; reflexivity).
    cbn [base_segments app]. eexists _, _. reflexivity.
  - exact target_of_call.
  - exact Htraversal.
  - exact (Htraversal "xema/v1/variables/metadades").
Qed.

(** X4. The message of the exception raised for a rejected status tells the
    status and the body apart: two rejected responses that give the same
    exception have the same status code and the same body. *)
Theorem error_message_determines_response (json_loads : string → option JSON)
    (url1 url2 : string) (net1 net2 : Network)
    (self1 self2 : meteocat_client.MeteocatClient) (r1 r2 : Response) :
  net1 (mkRequest url1 (meteocat_client.headers self1)) = Ok r1 →
  net2 (mkRequest url2 (meteocat_client.headers self2)) = Ok r2 →
  status_code r1 ≠ 200 → status_code r2 ≠ 200 →
  Eff.outcome (meteocat_client._request json_loads url1 net1 self1)
  = Eff.outcome (meteocat_client._request json_loads url2 net2 self2) →
  status_code r1 = status_code r2 ∧ text r1 = text r2.
Proof.
  intros Hn1 Hn2 Hs1 Hs2. rewrite !request_outcome, Hn1, Hn2.
  destruct (Z.eqb_spec (status_code r1) 200) as [?|_]; [contradiction|].
  destruct (Z.eqb_spec (status_code r2) 200) as [?|_]; [contradiction|].
  intros Hmsg. injection Hmsg as Hmsg. rewrite !app_nil_l in Hmsg.
  apply (f_equal (Query.cut ")")) in Hmsg.
  change ("): " +:+ text r1) with (String ")" (": " +:+ text r1)) in Hmsg.
  change ("): " +:+ text r2) with (String ")" (": " +:+ text r2)) in Hmsg.
  rewrite !cut_first in Hmsg by (apply str_int_chars; reflexivity).
  injection Hmsg as Hstatus Hbody. split.
  - apply str_int_inj, Hstatus.
  - rewrite !app_nil_l in Hbody. exact Hbody.
Qed.

Lemma error_message_determines_response_witness :
  let self := meteocat_client.mkClient "key" ∅ in
  let net : Network := λ _, Ok (mkResponse 503 "busy") in
  net (mkRequest "u" (meteocat_client.headers self)) = Ok (mkResponse 503 "busy")
  ∧ status_code (mkResponse 503 "busy") ≠ 200
  ∧ (status_code (mkResponse 503 "busy") = 503 ∧ text (mkResponse 503 "busy") = "busy").
Proof.
  split; [reflexivity|]. split; [discriminate|].
  apply (error_message_determines_response SampleJson.loads "u" "u"
           (λ _, Ok (mkResponse 503 "busy")) (λ _, Ok (mkResponse 503 "busy"))
           (meteocat_client.mkClient "key" ∅) (meteocat_client.mkClient "key" ∅)
           (mkResponse 503 "busy") (mkResponse 503 "busy") eq_refl eq_refl);
    [discriminate|discriminate|reflexivity].
Defined.

Lemma call_tool_configured (json_loads : string → option JSON) (py_str : JSON → string)
    (call : Call) (net : Network) (self : meteocat_client.MeteocatClient) :
  let rq := mkRequest (meteocat_client.url_of call) (meteocat_client.headers self) in
  let run := server.call_tool json_loads py_str call net (Some self) in
  Eff.state run = Some self
  ∧ Eff.sent run = [rq]
  ∧ Eff.outcome run
    = match net rq with
      | Raise e => Raise e
      | Ok response =>
          if status_code response =? 200 then
            match json_loads (text response) with
            | Some value => Ok (py_str value)
            | None => Raise JSONDecodeError
            end
          else Raise (Exception ("Meteocat API error (" +:+ Py.str_int (status_code response)
                                 +:+ "): " +:+ text response))
      end.
Proof.
  intros rq run. subst run.
  rewrite call_tool_invoke.
  pose proof (invoke_state json_loads call net self) as Hstate.
  pose proof (invoke_sent json_loads call net self) as Hsent.
  pose proof (request_outcome json_loads (meteocat_client.url_of call) net self) as Hout.
  rewrite <- invoke_request in Hout. fold rq in Hout, Hsent.
  unfold server.tool.
  destruct (meteocat_client.invoke json_loads call net self) as [[self' sent] r].
  cbn [Eff.state Eff.sent Eff.outcome fst snd] in *. subst self' sent r.
  split; [reflexivity|]. split; [reflexivity|].
  destruct (net rq) as [response|e]; [|reflexivity].
  destruct (status_code response =? 200); [|reflexivity].
  destruct (json_loads (text response)); reflexivity.
Qed.

(** X5. A tool of a configured server sends exactly one GET, for the URL of
    its call and with the client's headers, whatever the answer, and leaves
    the client as it was; its outcome follows the answer: a failed GET
    raises the failure itself, a status other than 200 raises the status
    exception, status 200 with a body that is not JSON raises the decoder's
    error, and status 200 with a JSON body returns [str] of the decoded
    value. *)
Theorem configured_tool_outcome (json_loads : string → option JSON) (py_str : JSON → string)
    (call : Call) (net : Network) (self : meteocat_client.MeteocatClient) :
  let rq := mkRequest (meteocat_client.url_of call) (meteocat_client.headers self) in
  let run := server.call_tool json_loads py_str call net (Some self) in
  Eff.state run = Some self
  ∧ Eff.sent run = [rq]
  ∧ Eff.outcome run
    = match net rq with
      | Raise e => Raise e
      | Ok response =>
          if status_code response =? 200 then
            match json_loads (text response) with
            | Some value => Ok (py_str value)
            | None => Raise JSONDecodeError
            end
          else Raise (Exception ("Meteocat API error (" +:+ Py.str_int (status_code response)
                                 +:+ "): " +:+ text response))
      end.
Proof.
  intros rq run.
  destruct (call_tool_configured json_loads py_str call net self) as (Hstate & Hsent & Hout).
  split; [exact Hstate|]. split; [exact Hsent|exact Hout].
Qed.

(** X6. Loading the server never raises and sends nothing: whatever the
    value of [METEOCAT_API_KEY], the constructor's [ValueError] cannot be
    reached, the client is [None] exactly when the key is absent or empty,
    and otherwise it is the client that holds the key, whose every tool call
    sends the key as is under [x-api-key]. *)
Theorem startup_never_raises (api_key : option string) (net : Network) :
  ∃ client,
    server.client api_key net () = ((), [], Ok client)
    ∧ (client = None ↔ Py.truthy api_key = false)
    ∧ ∀ self, client = Some self →
        api_key = Some (meteocat_client.api_key self)
        ∧ meteocat_client.headers self
          = {[ "x-api-key" := meteocat_client.api_key self; "Accept" := "application/json" ]}
        ∧ ∀ json_loads py_str call net',
            Forall (λ rq, req_headers rq !! "x-api-key" = api_key
                          ∧ req_url rq = meteocat_client.url_of call)
                   (Eff.sent (server.call_tool json_loads py_str call net' (Some self))).
Proof.
  destruct api_key as [[|a r]|].
  - exists None. split; [reflexivity|]. split; [tauto|]. intros self [=].
  - eexists. split; [reflexivity|]. split; [split; discriminate|].
    intros self [= <-]. cbn [meteocat_client.api_key meteocat_client.headers].
    split; [reflexivity|]. split; [reflexivity|].
    intros json_loads py_str call net'.
    destruct (call_tool_configured json_loads py_str call net'
                (meteocat_client.mkClient (String a r)
                   {[ "x-api-key" := String a r; "Accept" := "application/json" ]}))
      as (_ & -> & _).
    constructor; [|constructor]. split; [apply lookup_insert_eq|reflexivity].
  - exists None. split; [reflexivity|]. split; [tauto|]. intros self [=].
Qed.

(** X7. The header set is built once, by the constructor: what a method
    sends and returns depends on the client only through [headers], so a
    client whose [api_key] attribute was changed after construction goes on
    sending the key it was constructed with. *)
Theorem requests_use_constructed_headers (json_loads : string → option JSON)
    (call : Call) (net : Network) (self : meteocat_client.MeteocatClient) (other : string) :
  let changed := meteocat_client.mkClient other (meteocat_client.headers self) in
  Eff.sent (meteocat_client.invoke json_loads call net changed)
  = Eff.sent (meteocat_client.invoke json_loads call net self)
  ∧ Eff.outcome (meteocat_client.invoke json_loads call net changed)
    = Eff.outcome (meteocat_client.invoke json_loads call net self)
  ∧ (∀ a r, self = meteocat_client.mkClient (String a r)
                     {[ "x-api-key" := String a r; "Accept" := "application/json" ]} →
      Forall (λ rq, req_headers rq !! "x-api-key" = Some (String a r))
             (Eff.sent (meteocat_client.invoke json_loads call net changed))).
Proof.
  intros changed. rewrite !invoke_sent, !invoke_request, !request_outcome.
  split; [reflexivity|]. split; [reflexivity|].
  intros a r ->. constructor; [|constructor]. apply lookup_insert_eq.
Qed.

Section ServeFacts.

Context (json_loads : string → option JSON) (py_str : JSON → string).

Lemma serve_cons (call : Call) (calls : list Call) (net : Network)
    (client : option meteocat_client.MeteocatClient) :
  let first := server.call_tool json_loads py_str call net client in
  let rest := serve json_loads py_str calls net (Eff.state first) in
  Eff.state (serve json_loads py_str (call :: calls) net client) = Eff.state rest
  ∧ Eff.sent (serve json_loads py_str (call :: calls) net client)
    = Eff.sent first ++ Eff.sent rest
  ∧ Eff.outcome (serve json_loads py_str (call :: calls) net client)
    = match Eff.outcome rest with
      | Ok l => Ok (Eff.outcome first :: l)
      | Raise e => Raise e
      end.
Proof.
  cbn [serve].
  destruct (server.call_tool json_loads py_str call net client) as [[client1 sent1] r].
  cbn [Eff.state Eff.sent Eff.outcome fst snd].
  destruct (serve json_loads py_str calls net client1) as [[client2 sent2] rs].
  repeat split; reflexivity.
Qed.

Lemma call_tool_unconfigured (call : Call) (net : Network) :
  server.call_tool json_loads py_str call net None = (None, [], Ok server.not_configured).
Proof. destruct call; reflexivity. Qed.

End ServeFacts.

(** X8. The calls of a run are independent of each other: on a configured
    server a run sends one GET per call, in the order of the calls and a
    repeated call again (nothing is cached, nothing retried), each call gives
    the result it gives alone, and the client stays as it was; on a server
    with no client a run of any length sends nothing and every call gives the
    configuration message. *)
Theorem run_of_independent_calls (json_loads : string → option JSON) (py_str : JSON → string)
    (calls : list Call) (net : Network) :
  (∀ self,
     Eff.state (serve json_loads py_str calls net (Some self)) = Some self
     ∧ Eff.sent (serve json_loads py_str calls net (Some self))
       = map (λ call, mkRequest (meteocat_client.url_of call) (meteocat_client.headers self))
             calls
     ∧ Eff.outcome (serve json_loads py_str calls net (Some self))
       = Ok (map (λ call, Eff.outcome (server.call_tool json_loads py_str call net (Some self)))
                 calls))
  ∧ Eff.state (serve json_loads py_str calls net None) = None
  ∧ Eff.sent (serve json_loads py_str calls net None) = []
  ∧ Eff.outcome (serve json_loads py_str calls net None)
    = Ok (map (λ _, Ok server.not_configured) calls).
Proof.
  split.
  - intros self. induction calls as [|call calls (IHstate & IHsent & IHout)].
    + repeat split; reflexivity.
    + destruct (serve_cons json_loads py_str call calls net (Some self)) as (-> & -> & ->).
      destruct (call_tool_configured json_loads py_str call net self) as (Hs & Hsent & _).
      rewrite Hs, Hsent, IHstate, IHsent, IHout. repeat split; reflexivity.
  - induction calls as [|call calls (IHstate & IHsent & IHout)].
    + repeat split; reflexivity.
    + destruct (serve_cons json_loads py_str call calls net None) as (-> & -> & ->).
      rewrite call_tool_unconfigured. cbn [Eff.state Eff.sent Eff.outcome fst snd].
      rewrite IHstate, IHsent, IHout. repeat split; reflexivity.
Qed.

Example uri_examples :
  Uri.target "https://api.meteo.cat/xema/v1/estacions/./metadades"
  = Uri.target "https://api.meteo.cat/xema/v1/estacions/metadades"
  ∧ Uri.target "https://api.meteo.cat/pronostic/v1/uvi/../../../xema/v1/variables/metadades"
    = Uri.target "https://api.meteo.cat/xema/v1/variables/metadades"
  ∧ Uri.params "https://api.meteo.cat/xema/v1/estacions/metadades?estat=#x" = [("estat", "")]
  ∧ Uri.params "https://api.meteo.cat/xema/v1/estacions/A#B/variables/metadades?estat=ope" = []
  ∧ Uri.target "https://api.meteo.cat/a/b/c/./../../g?x=1#frag"
    = Some ("https:", "api.meteo.cat", ["a"; "g"], Some "x=1")
  ∧ Uri.remove_dots [] [".."; "a"; "b"; ".."] = ["a"; ""]
  ∧ token_call (GetAllStations (Some "#x") None) = false
  ∧ dotless_call (GetStation ".") = false
  ∧ dotless_call (GetStation "UG") = true.
Proof. vm_compute. repeat split; reflexivity. Qed.
